(** * SearchEngine (search.py): query construction and result caching

    A shallow embedding of [SearchEngine] from [src/search.py]: the request
    bodies its search methods build, the calls they make to Elasticsearch,
    Redis and the TF-IDF vectorizer, and the [str]/[eval] pair the result
    cache serialises with.

    Conventions.
    - A Python [str] and a Redis byte string are both a [string] (the
      UTF-8 bytes of the text). The functions that look inside a string
      ([py_repr], [py_eval], [tokenize]) are exact on ASCII text
      ([ascii_text]); the properties that depend on what they do inside
      a text are stated for ASCII text.
    - A Python [dict] is an association list in insertion order with
      unique keys ([wf_val]); keys are strings. Values are [None],
      booleans, integers, strings, lists and dicts; there are no floats
      among them.
    - The three services are external. Elasticsearch is an oracle from
      (index, body) to a response or an error; Redis is a map from key to
      (value, expiry instant) read against a clock; the vectorizer is
      scikit-learn's [TfidfVectorizer] with its default settings.
    - Every method runs in the monad [M]: it reads and writes a [world]
      and either returns a value or raises. Each call to a service is
      appended to the world's [trace].
    - The interpreter is CPython 3.11 with its default limits. Two of
      them show in the model: the 4300 digits of the conversion between
      integers and decimal text, and the nesting of brackets in source
      text, which [py_eval] follows up to [max_nesting]. Calls are made
      with enough stack left for them.
    - [eval] is given text from the store and runs whatever code it is.
      [py_eval] decides the texts that are displays of literals, and
      texts that cannot be compiled; what [eval] does with any other text
      (its value or exception, and its effects, which reach the store
      through [self]) is the parameter [interp] of [get_cached_results]. *)

From Stdlib Require Import ZArith NArith List String Ascii Bool Lia.
From Stdlib Require Import DecimalString DecimalN Decimal.
From Stdlib Require Import Floats.
From stdpp Require Import base gmap strings list.

#[local] Set Warnings "-register-all".
Local Open Scope string_scope.
Local Open Scope Z_scope.

(** ** Python values *)

(** The values that travel as documents, filter values and cached result
    sets: what a JSON response decodes to, floats excepted. *)
Inductive pyval : Type :=
| PyNone
| PyBool (b : bool)
| PyInt (z : Z)
| PyStr (s : string)
| PyList (l : list pyval)
| PyDict (d : list (string * pyval)).

(** A request body: a dict literal whose leaves are Python values or the
    float vector [query_vector.tolist()]. *)
Inductive body : Type :=
| BVal (v : pyval)
| BVec (v : list float)
| BList (l : list body)
| BDict (d : list (string * body)).

(** The exceptions the modelled code can raise; [PyError] is an
    exception of any other class, by the name of the class. *)
Inductive exn : Type :=
| SyntaxError
| KeyError (k : string)
| TypeError
| ValueError (msg : string)
| ConnectionError
| PyError (cls : string).

Inductive result (A : Type) : Type :=
| Ok (a : A)
| Raise (e : exn).
Arguments Ok {A} a.
Arguments Raise {A} e.

(** [d[k]] on a Python dict. *)
Fixpoint dict_get {A} (k : string) (d : list (string * A)) : option A :=
  match d with
  | [] => None
  | (k', v) :: d' => if String.eqb k k' then Some v else dict_get k d'
  end.

(** [d[k] = v]: replaces the value in place when [k] is present, appends
    the pair otherwise. *)
Fixpoint dict_set {A} (k : string) (v : A) (d : list (string * A))
  : list (string * A) :=
  match d with
  | [] => [(k, v)]
  | (k', v') :: d' =>
      if String.eqb k k' then (k', v) :: d' else (k', v') :: dict_set k v d'
  end.

(** The dict a display [{k1: v1, ..., kn: vn}] evaluates to. *)
Definition dict_of_items {A} (items : list (string * A)) : list (string * A) :=
  fold_left (fun d kv => dict_set (fst kv) (snd kv) d) items [].

(** Unique keys, at every depth. *)
Fixpoint wf_val (v : pyval) : Prop :=
  match v with
  | PyList l => (fix all (l : list pyval) : Prop :=
                   match l with
                   | [] => True
                   | x :: l' => wf_val x /\ all l'
                   end) l
  | PyDict d => List.NoDup (map fst d) /\
                (fix all (d : list (string * pyval)) : Prop :=
                   match d with
                   | [] => True
                   | (_, x) :: d' => wf_val x /\ all d'
                   end) d
  | _ => True
  end.

(** ** [repr]: what [str(results)] writes *)

Definition hex_digit (n : nat) : ascii :=
  match n with
  | 0 => "0" | 1 => "1" | 2 => "2" | 3 => "3" | 4 => "4" | 5 => "5"
  | 6 => "6" | 7 => "7" | 8 => "8" | 9 => "9" | 10 => "a" | 11 => "b"
  | 12 => "c" | 13 => "d" | 14 => "e" | _ => "f"
  end%nat%char.

Definition quote1 : ascii := "'"%char.
Definition quote2 : ascii := Ascii.ascii_of_nat 34.
Definition backslash : ascii := "\"%char.

(** One character inside a literal quoted with [q]: exact for ASCII
    characters. Bytes from 128 up (UTF-8 of non-ASCII text) are written
    as they are, which is what [repr] does with the printable characters
    only; the properties below are stated for ASCII text. *)
Definition escape_char (q c : ascii) : string :=
  let n := nat_of_ascii c in
  if Ascii.eqb c backslash then String backslash (String backslash "")
  else if Ascii.eqb c q then String backslash (String q "")
  else if Nat.eqb n 9 then String backslash "t"
  else if Nat.eqb n 10 then String backslash "n"
  else if Nat.eqb n 13 then String backslash "r"
  else if (Nat.ltb n 32 || Nat.eqb n 127)%bool then
    String backslash
      (String "x" (String (hex_digit (n / 16)) (String (hex_digit (n mod 16)) "")))
  else String c "".

Fixpoint escape (q : ascii) (s : string) : string :=
  match s with
  | "" => ""
  | String c s' => escape_char q c ++ escape q s'
  end.

Fixpoint contains (c : ascii) (s : string) : bool :=
  match s with
  | "" => false
  | String c' s' => Ascii.eqb c c' || contains c s'
  end.

(** Double quotes exactly when the text has a single quote and no double
    quote. *)
Definition choose_quote (s : string) : ascii :=
  if (contains quote1 s && negb (contains quote2 s))%bool then quote2 else quote1.

Definition str_repr (s : string) : string :=
  let q := choose_quote s in
  String q (escape q s ++ String q "").

Definition nat_repr (n : N) : string :=
  NilEmpty.string_of_uint (N.to_uint n).

Definition int_repr (z : Z) : string :=
  match z with
  | Zneg p => String "-" (nat_repr (Npos p))
  | _ => nat_repr (Z.to_N z)
  end.

Fixpoint py_repr (v : pyval) : string :=
  match v with
  | PyNone => "None"
  | PyBool true => "True"
  | PyBool false => "False"
  | PyInt z => int_repr z
  | PyStr s => str_repr s
  | PyList l =>
      "[" ++ (fix items (l : list pyval) : string :=
                match l with
                | [] => "]"
                | [x] => py_repr x ++ "]"
                | x :: l' => py_repr x ++ ", " ++ items l'
                end) l
  | PyDict d =>
      "{" ++ (fix items (d : list (string * pyval)) : string :=
                match d with
                | [] => "}"
                | [(k, x)] => str_repr k ++ ": " ++ py_repr x ++ "}"
                | (k, x) :: d' => str_repr k ++ ": " ++ py_repr x ++ ", " ++ items d'
                end) d
  end.

(** Every byte is an ASCII character. *)
Fixpoint ascii_text (s : string) : bool :=
  match s with
  | "" => true
  | String c s' => (Nat.ltb (nat_of_ascii c) 128 && ascii_text s')%bool
  end.

(** The most digits an integer may have to be written as decimal text,
    or read from it ([sys.get_int_max_str_digits()]). *)
Definition max_str_digits : nat := 4300.

(** The most brackets open at once in a text the reader below decides.
    The interpreter takes more: its tokenizer refuses the 201st open
    bracket, and its parser runs out of stack between 100 and 200 open
    brackets, depending on what stands around them. *)
Definition max_nesting : nat := 100.

(** The decimal digits of an integer, sign apart. *)
Definition digits (z : Z) : nat := String.length (nat_repr (Z.abs_N z)).

(** No integer in the value has more than [n] digits. *)
Fixpoint ints_within (n : nat) (v : pyval) : bool :=
  match v with
  | PyInt z => Nat.leb (digits z) n
  | PyList l => forallb (ints_within n) l
  | PyDict d => forallb (fun kv => ints_within n (snd kv)) d
  | _ => true
  end.

(** No integer in the value has more digits than can be written. *)
Definition ints_fit (v : pyval) : bool := ints_within max_str_digits v.

(** [str(v)]: a string is its own text; any other value is written as
    [repr] writes it, unless an integer in it is too long to write, which
    is a [ValueError]. As [py_repr], exact on ASCII strings. *)
Definition py_str (v : pyval) : result string :=
  match v with
  | PyStr s => Ok s
  | _ =>
      if ints_fit v then Ok (py_repr v)
      else Raise (ValueError
        "Exceeds the limit (4300 digits) for integer string conversion; use sys.set_int_max_str_digits() to increase the limit")
  end.

(** ** [eval] on literal displays *)

(** The outcome of reading a prefix of the text: a value and the text
    left; an exception raised while compiling; or [PBeyond], when the
    text is not a display this reader decides. *)
Inductive presult (A : Type) : Type :=
| POk (a : A) (rest : string)
| PErr (e : exn)
| PBeyond.
Arguments POk {A} a rest.
Arguments PErr {A} e.
Arguments PBeyond {A}.

Fixpoint skip_spaces (s : string) : string :=
  match s with
  | String " " s' => skip_spaces s'
  | _ => s
  end.

Definition is_digit (c : ascii) : bool :=
  let n := nat_of_ascii c in (Nat.leb 48 n && Nat.leb n 57)%bool.

(** The longest prefix of decimal digits, and the text after it. *)
Fixpoint span_digits (s : string) : string * string :=
  match s with
  | String c s' =>
      if is_digit c then
        let (ds, rest) := span_digits s' in (String c ds, rest)
      else ("", s)
  | "" => ("", "")
  end.

(** A decimal integer literal: its digits are exactly the way the number
    prints (so no leading zeros) and are no more than can be read; other
    digit runs are not decided here. *)
Definition parse_nat (s : string) : presult N :=
  let (ds, rest) := span_digits s in
  match NilEmpty.uint_of_string ds with
  | Some d =>
      let n := N.of_uint d in
      if (String.eqb (nat_repr n) ds && Nat.leb (String.length ds) max_str_digits)%bool
      then POk n rest else PBeyond
  | None => PBeyond
  end.

Definition hex_value (c : ascii) : option nat :=
  let n := nat_of_ascii c in
  if (Nat.leb 48 n && Nat.leb n 57)%bool then Some (n - 48)%nat
  else if (Nat.leb 97 n && Nat.leb n 102)%bool then Some (n - 87)%nat
  else if (Nat.leb 65 n && Nat.leb n 70)%bool then Some (n - 55)%nat
  else None.

Definition pcons (c : ascii) (r : presult string) : presult string :=
  match r with
  | POk s rest => POk (String c s) rest
  | PErr e => PErr e
  | PBeyond => PBeyond
  end.

(** The text of a string literal after its opening quote [q], up to the
    closing quote. The end of the text or of the line before the closing
    quote is a syntax error, and so is a malformed [\x] escape. Escapes
    that [repr] never writes, and bytes that are not ASCII characters,
    are not decided here. *)
Fixpoint parse_str_body (q : ascii) (s : string) : presult string :=
  match s with
  | "" => PErr SyntaxError
  | String c s' =>
      if Ascii.eqb c q then POk "" s'
      else if Ascii.eqb c backslash then
        match s' with
        | "" => PErr SyntaxError
        | String e s'' =>
            if Ascii.eqb e backslash then pcons backslash (parse_str_body q s'')
            else if Ascii.eqb e quote1 then pcons quote1 (parse_str_body q s'')
            else if Ascii.eqb e quote2 then pcons quote2 (parse_str_body q s'')
            else if Ascii.eqb e "t" then pcons (ascii_of_nat 9) (parse_str_body q s'')
            else if Ascii.eqb e "n" then pcons (ascii_of_nat 10) (parse_str_body q s'')
            else if Ascii.eqb e "r" then pcons (ascii_of_nat 13) (parse_str_body q s'')
            else if Ascii.eqb e "x" then
              match s'' with
              | String h1 (String h2 s3) =>
                  match hex_value h1, hex_value h2 with
                  | Some a, Some b =>
                      if Nat.ltb (16 * a + b) 128
                      then pcons (ascii_of_nat (16 * a + b)) (parse_str_body q s3)
                      else PBeyond
                  | _, _ => PErr SyntaxError
                  end
              | _ => PErr SyntaxError
              end
            else PBeyond
        end
      else if (Nat.eqb (nat_of_ascii c) 10 || Nat.eqb (nat_of_ascii c) 13)%bool
      then PErr SyntaxError
      else if (Nat.eqb (nat_of_ascii c) 0 || Nat.leb 128 (nat_of_ascii c))%bool
      then PBeyond
      else pcons c (parse_str_body q s')
  end.

(** [s] starts with the keyword [kw]: the text after it. *)
Fixpoint strip_prefix (kw s : string) : option string :=
  match kw, s with
  | "", _ => Some s
  | String a kw', String b s' =>
      if Ascii.eqb a b then strip_prefix kw' s' else None
  | _, _ => None
  end.

(** An atom: [None], [True], [False], an integer or a string literal. *)
Definition parse_atom (s : string) : presult pyval :=
  match s with
  | "" => PErr SyntaxError
  | String c s' =>
      if (Ascii.eqb c quote1 || Ascii.eqb c quote2)%bool then
        match parse_str_body c s' with
        | POk t rest => POk (PyStr t) rest
        | PErr e => PErr e
        | PBeyond => PBeyond
        end
      else if Ascii.eqb c "-" then
        match parse_nat s' with
        | POk n rest => POk (PyInt (- Z.of_N n)) rest
        | PErr e => PErr e
        | PBeyond => PBeyond
        end
      else if is_digit c then
        match parse_nat s with
        | POk n rest => POk (PyInt (Z.of_N n)) rest
        | PErr e => PErr e
        | PBeyond => PBeyond
        end
      else
        match strip_prefix "None" s, strip_prefix "True" s, strip_prefix "False" s with
        | Some rest, _, _ => POk PyNone rest
        | _, Some rest, _ => POk (PyBool true) rest
        | _, _, Some rest => POk (PyBool false) rest
        | _, _, _ => PBeyond
        end
  end.

(** A key of a dict display: a string literal. *)
Definition parse_key (s : string) : presult string :=
  match s with
  | "" => PErr SyntaxError
  | String c s' =>
      if (Ascii.eqb c quote1 || Ascii.eqb c quote2)%bool
      then parse_str_body c s' else PBeyond
  end.

(** Values, the items of a list display after its bracket or a comma,
    and the items of a dict display. [level] counts the brackets open
    around the text; a text that opens more than [max_nesting] is not
    decided here. Each call below the first spends one unit of [fuel];
    [py_eval] gives enough for the whole text. *)
Fixpoint parse_value (fuel level : nat) (s : string) : presult pyval :=
  match fuel with
  | O => PBeyond
  | S fuel =>
      match skip_spaces s with
      | "" => PErr SyntaxError
      | String c s' =>
          if Ascii.eqb c "[" then
            if Nat.leb max_nesting level then PBeyond
            else
              match parse_items fuel (S level) s' with
              | POk l rest => POk (PyList l) rest
              | PErr e => PErr e
              | PBeyond => PBeyond
              end
          else if Ascii.eqb c "{" then
            if Nat.leb max_nesting level then PBeyond
            else
              match parse_pairs fuel (S level) s' with
              | POk d rest => POk (PyDict (dict_of_items d)) rest
              | PErr e => PErr e
              | PBeyond => PBeyond
              end
          else parse_atom (String c s')
      end
  end
with parse_items (fuel level : nat) (s : string) : presult (list pyval) :=
  match fuel with
  | O => PBeyond
  | S fuel =>
      match skip_spaces s with
      | "" => PErr SyntaxError
      | String c s' =>
          if Ascii.eqb c "]" then POk [] s'
          else
            match parse_value fuel level (String c s') with
            | POk v rest =>
                match skip_spaces rest with
                | "" => PErr SyntaxError
                | String c' rest' =>
                    if Ascii.eqb c' "]" then POk [v] rest'
                    else if Ascii.eqb c' "," then
                      match parse_items fuel level rest' with
                      | POk l rest'' => POk (v :: l) rest''
                      | PErr e => PErr e
                      | PBeyond => PBeyond
                      end
                    else PBeyond
                end
            | PErr e => PErr e
            | PBeyond => PBeyond
            end
      end
  end
with parse_pairs (fuel level : nat) (s : string) : presult (list (string * pyval)) :=
  match fuel with
  | O => PBeyond
  | S fuel =>
      match skip_spaces s with
      | "" => PErr SyntaxError
      | String c s' =>
          if Ascii.eqb c "}" then POk [] s'
          else
            match parse_key (String c s') with
            | POk k rest =>
                match skip_spaces rest with
                | "" => PErr SyntaxError
                | String c1 rest1 =>
                    if Ascii.eqb c1 ":" then
                      match parse_value fuel level rest1 with
                      | POk v rest2 =>
                          match skip_spaces rest2 with
                          | "" => PErr SyntaxError
                          | String c2 rest3 =>
                              if Ascii.eqb c2 "}" then POk [(k, v)] rest3
                              else if Ascii.eqb c2 "," then
                                match parse_pairs fuel level rest3 with
                                | POk d rest4 => POk ((k, v) :: d) rest4
                                | PErr e => PErr e
                                | PBeyond => PBeyond
                                end
                              else PBeyond
                          end
                      | PErr e => PErr e
                      | PBeyond => PBeyond
                      end
                    else PBeyond
                end
            | PErr e => PErr e
            | PBeyond => PBeyond
            end
      end
  end.

(** What [eval(text)] does, as far as the reader below decides it: it
    returns the value of a display, or fails to compile the text;
    [Other] is every text the reader leaves open, code among them. *)
Inductive evaluation : Type :=
| Evaluates (v : pyval)
| Fails (e : exn)
| Other.

(** [eval(text)] as far as this reader decides it: a display of
    literals, spaces allowed around it, evaluates to its value; a text
    that cannot be compiled raises (a NUL byte anywhere in the text is
    refused before compiling, which is not decided here); any other text
    is left to the interpreter proper. *)
Definition py_eval (text : string) : evaluation :=
  match parse_value (2 * String.length text + 2) 0 text with
  | POk v rest =>
      match skip_spaces rest with
      | "" => Evaluates v
      | _ => Other
      end
  | PErr e => if contains (ascii_of_nat 0) text then Other else Fails e
  | PBeyond => Other
  end.

(** ** The world the engine runs in *)

(** One call to an external service. *)
Inductive event : Type :=
| EsSearch (index : string) (b : body)
| RedisSetex (key : string) (ttl : Z) (value : string)
| RedisGet (key : string)
| TfidfFit (docs : list string).

(** [redis_db] maps a key to its value and the instant it expires;
    [clock] is the current instant in seconds; [vocabulary_] is the
    attribute a fit leaves on [self.vectorizer] ([None] before the first
    fit); [trace] lists the service calls made so far, oldest first. *)
Record world : Type := mkWorld {
  redis_db : gmap string (string * Z);
  clock : Z;
  vocabulary_ : option (list string);
  trace : list event
}.

Definition M (A : Type) : Type := world -> result A * world.

Definition ret {A} (a : A) : M A := fun w => (Ok a, w).

Definition raise {A} (e : exn) : M A := fun w => (Raise e, w).

Definition bind {A B} (m : M A) (k : A -> M B) : M B :=
  fun w =>
    match m w with
    | (Ok a, w') => k a w'
    | (Raise e, w') => (Raise e, w')
    end.

Notation "'do' x <- m ; k" := (bind m (fun x => k))
  (at level 10, x name, m at level 100, k at level 200).

Definition lift {A} (r : result A) : M A := fun w => (r, w).

Definition log (e : event) (w : world) : world :=
  mkWorld (redis_db w) (clock w) (vocabulary_ w) (trace w ++ [e]).

(** Time passing between two calls. *)
Definition sleep (dt : Z) (w : world) : world :=
  mkWorld (redis_db w) (clock w + dt) (vocabulary_ w) (trace w).

(** *** Redis *)

(** [SETEX key ttl value]: the key holds [value] until [ttl] seconds from
    now, whatever it held before. *)
Definition redis_setex (key : string) (ttl : Z) (value : string) : M unit :=
  fun w =>
    let w := log (RedisSetex key ttl value) w in
    (Ok tt, mkWorld (<[key := (value, clock w + ttl)]> (redis_db w))
                    (clock w) (vocabulary_ w) (trace w)).

(** [GET key]: the value up to and at the instant the key expires,
    [None] once the clock has passed it. *)
Definition redis_get (key : string) : M (option string) :=
  fun w =>
    let w := log (RedisGet key) w in
    match redis_db w !! key with
    | Some (value, expiry) =>
        if Z.leb (clock w) expiry then (Ok (Some value), w) else (Ok None, w)
    | None => (Ok None, w)
    end.

(** *** TfidfVectorizer *)

Definition lower_char (c : ascii) : ascii :=
  let n := nat_of_ascii c in
  if (Nat.leb 65 n && Nat.leb n 90)%bool then ascii_of_nat (n + 32) else c.

Fixpoint lower (s : string) : string :=
  match s with
  | "" => ""
  | String c s' => String (lower_char c) (lower s')
  end.

(** [\w]: letters, digits and the underscore; the bytes of non-ASCII
    text count as letters (exact on ASCII text). *)
Definition is_word (c : ascii) : bool :=
  let n := nat_of_ascii c in
  ((Nat.leb 48 n && Nat.leb n 57) || (Nat.leb 65 n && Nat.leb n 90)
   || (Nat.leb 97 n && Nat.leb n 122) || Nat.eqb n 95 || Nat.leb 128 n)%bool.

(** Characters of a token: UTF-8 continuation bytes do not count. *)
Fixpoint char_count (s : string) : nat :=
  match s with
  | "" => 0
  | String c s' =>
      let n := nat_of_ascii c in
      if (Nat.leb 128 n && Nat.ltb n 192)%bool then char_count s'
      else S (char_count s')
  end.

(** The runs of word characters, in order; [cur] is the run being read. *)
Fixpoint word_runs (cur : string) (s : string) : list string :=
  match s with
  | "" => match cur with "" => [] | _ => [cur] end
  | String c s' =>
      if is_word c then word_runs (cur ++ String c "") s'
      else match cur with
           | "" => word_runs "" s'
           | _ => cur :: word_runs "" s'
           end
  end.

(** The default analyzer: lower-case, then the tokens of two or more
    word characters. *)
Definition tokenize (doc : string) : list string :=
  List.filter (fun t => Nat.leb 2 (char_count t)) (word_runs "" (lower doc)).

(** Sorted insertion without duplicates: the vocabulary in the order
    [sorted(vocabulary)] gives it. *)
Fixpoint insert_sorted (t : string) (l : list string) : list string :=
  match l with
  | [] => [t]
  | u :: l' =>
      match String.compare t u with
      | Lt => t :: u :: l'
      | Eq => u :: l'
      | Gt => u :: insert_sorted t l'
      end
  end.

Definition build_vocabulary (tokens : list string) : list string :=
  fold_right insert_sorted [] tokens.

Definition term_count (tokens : list string) (t : string) : nat :=
  length (List.filter (String.eqb t) tokens).

Definition float_of_nat (n : nat) : float :=
  PrimFloat.of_uint63 (Uint63.of_Z (Z.of_nat n)).

(** The weights of one document fitted alone: every term has document
    frequency 1 of 1, so its idf is [ln (2/2) + 1 = 1.0] and its weight
    is its count; the row is then divided by its Euclidean norm. *)
Definition tfidf_row (vocab tokens : list string) : list float :=
  let tf := map (fun t => float_of_nat (term_count tokens t)) vocab in
  let norm := PrimFloat.sqrt
                (fold_left (fun acc x => PrimFloat.add acc (PrimFloat.mul x x)) tf
                           (float_of_nat 0)) in
  map (fun x => PrimFloat.div x norm) tf.

(** [self.vectorizer.fit_transform([doc]).toarray()[0]]: the vocabulary
    is rebuilt from [doc] and replaces the one the vectorizer held. A
    document without a token raises and leaves the vectorizer as it was. *)
Definition fit_transform_row (doc : string) : M (list float) :=
  fun w =>
    let w := log (TfidfFit [doc]) w in
    let tokens := tokenize doc in
    match build_vocabulary tokens with
    | [] => (Raise (ValueError
               "empty vocabulary; perhaps the documents only contain stop words"), w)
    | vocab =>
        (Ok (tfidf_row vocab tokens),
         mkWorld (redis_db w) (clock w) (Some vocab) (trace w))
    end.

(** *** Reading a response *)

(** [v[k]] for a string [k]. *)
Definition py_getitem (v : pyval) (k : string) : result pyval :=
  match v with
  | PyDict d =>
      match dict_get k d with
      | Some x => Ok x
      | None => Raise (KeyError k)
      end
  | _ => Raise TypeError
  end.

Fixpoint chars (s : string) : list pyval :=
  match s with
  | "" => []
  | String c s' => PyStr (String c "") :: chars s'
  end.

(** What [for hit in v] runs over. *)
Definition py_iter (v : pyval) : result (list pyval) :=
  match v with
  | PyList l => Ok l
  | PyDict d => Ok (map (fun kv => PyStr (fst kv)) d)
  | PyStr s => Ok (chars s)
  | _ => Raise TypeError
  end.

(** [[f(x) for x in l]], stopping at the first exception. *)
Fixpoint map_result {A B} (f : A -> result B) (l : list A) : result (list B) :=
  match l with
  | [] => Ok []
  | x :: l' =>
      match f x with
      | Ok y =>
          match map_result f l' with
          | Ok ys => Ok (y :: ys)
          | Raise e => Raise e
          end
      | Raise e => Raise e
      end
  end.

Definition rbind {A B} (r : result A) (k : A -> result B) : result B :=
  match r with
  | Ok a => k a
  | Raise e => Raise e
  end.

(** [[hit["_source"] for hit in results["hits"]["hits"]]] *)
Definition hit_sources (results : pyval) : result (list pyval) :=
  rbind (py_getitem results "hits") (fun outer =>
  rbind (py_getitem outer "hits") (fun inner =>
  rbind (py_iter inner) (fun hits =>
  map_result (fun hit => py_getitem hit "_source") hits))).

(** ** SearchEngine *)

(** [b[k]] and [b[k] = v] on a request body. *)
Definition body_getitem (b : body) (k : string) : result body :=
  match b with
  | BDict d =>
      match dict_get k d with
      | Some x => Ok x
      | None => Raise (KeyError k)
      end
  | _ => Raise TypeError
  end.

Definition body_setitem (b : body) (k : string) (v : body) : result body :=
  match b with
  | BDict d => Ok (BDict (dict_set k v d))
  | _ => Raise TypeError
  end.

(** [search_body["query"]["bool"]["filter"] = clauses]. The inner dicts
    are the ones [search_body] holds, so the body sees the assignment. *)
Definition set_filter (search_body clauses : body) : result body :=
  rbind (body_getitem search_body "query") (fun q =>
  rbind (body_getitem q "bool") (fun bl =>
  rbind (body_setitem bl "filter" clauses) (fun bl' =>
  rbind (body_setitem q "bool" bl') (fun q' =>
  body_setitem search_body "query" q')))).

(** [if filters:] for [filters: Dict = None]. *)
Definition truthy (filters : option (list (string * pyval))) : bool :=
  match filters with
  | Some (_ :: _) => true
  | _ => false
  end.

Definition items (filters : option (list (string * pyval))) : list (string * pyval) :=
  match filters with
  | Some d => d
  | None => []
  end.

Definition match_clause (field query : string) : body :=
  BDict [("match", BDict [(field, BVal (PyStr query))])].

Definition term_clause (field : string) (value : pyval) : body :=
  BDict [("term", BDict [(field, BVal value)])].

(** The literal [search_messages] starts from. *)
Definition messages_literal (query : string) : body :=
  BDict [("query", BDict [("bool", BDict [("must", BList [match_clause "content" query])])]);
         ("sort", BList [BDict [("timestamp", BVal (PyStr "desc"))]]);
         ("size", BVal (PyInt 50))].

(** The body [search_messages] sends. *)
Definition messages_body (query : string) (filters : option (list (string * pyval)))
  : result body :=
  if truthy filters then
    set_filter (messages_literal query)
      (BList (map (fun kv => term_clause (fst kv) (snd kv)) (items filters)))
  else Ok (messages_literal query).

Definition cosine_script : string :=
  "cosineSimilarity(params.query_vector, doc['content_vector']) + 1.0".

(** The body [semantic_search] sends. *)
Definition semantic_body (query_vector : list float) : body :=
  BDict [("query", BDict [("script_score", BDict
           [("query", BDict [("match_all", BDict [])]);
            ("script", BDict [("source", BVal (PyStr cosine_script));
                              ("params", BDict [("query_vector", BVec query_vector)])])])]);
         ("size", BVal (PyInt 20))].

(** The body [search_users] sends. *)
Definition users_body (query : string) : body :=
  BDict [("query", BDict [("multi_match", BDict
           [("query", BVal (PyStr query));
            ("fields", BList [BVal (PyStr "username^2"); BVal (PyStr "email")])])])].

(** The body [search_rooms] sends. *)
Definition rooms_body (query user_id : string) : body :=
  BDict [("query", BDict [("bool", BDict
           [("must", BList [match_clause "name" query;
                            term_clause "members" (PyStr user_id)])])])].

Definition cache_key (query : string) : string := "search:" ++ query.

(** [cache_search_results]: [setex] of [str(results)] for 300 seconds.
    The arguments are evaluated before the call, so an exception of
    [str] leaves Redis uncalled. *)
Definition cache_search_results (query : string) (results : list pyval) : M unit :=
  do text <- lift (py_str (PyList results));
  redis_setex (cache_key query) 300 text.

Section Eval.

(** What [eval] does with a text that [py_eval] leaves open: the value
    it returns or the exception it raises, and the world it leaves. *)
Variable interp : string -> M pyval.

(** [eval(cached)] *)
Definition eval_cached (text : string) : M pyval :=
  match py_eval text with
  | Evaluates v => ret v
  | Fails e => raise e
  | Other => interp text
  end.

(** [get_cached_results]: [eval(cached) if cached else None]. Empty bytes
    are falsy. The miss is Python's [None]. *)
Definition get_cached_results (query : string) : M pyval :=
  do cached <- redis_get (cache_key query);
  match cached with
  | Some (String c text) => eval_cached (String c text)
  | _ => ret PyNone
  end.

End Eval.

Section Backend.

(** The search backend: what [self.es.search(index=..., body=...)]
    answers, or the exception it raises. *)
Variable es : string -> body -> result pyval.

Definition es_search (index : string) (b : body) : M pyval :=
  fun w => (es index b, log (EsSearch index b) w).

Definition search_messages (query : string)
    (filters : option (list (string * pyval))) : M (list pyval) :=
  do search_body <- lift (messages_body query filters);
  do results <- es_search "messages" search_body;
  lift (hit_sources results).

(** [context] is not used. *)
Definition semantic_search (query context : string) : M (list pyval) :=
  do query_vector <- fit_transform_row query;
  do results <- es_search "messages" (semantic_body query_vector);
  lift (hit_sources results).

Definition search_users (query : string) : M (list pyval) :=
  do results <- es_search "users" (users_body query);
  lift (hit_sources results).

Definition search_rooms (query user_id : string) : M (list pyval) :=
  do results <- es_search "rooms" (rooms_body query user_id);
  lift (hit_sources results).

End Backend.

(** ** Reading a request body and a trace *)

(** The value under a path of keys. *)
Fixpoint body_path (path : list string) (b : body) : option body :=
  match path with
  | [] => Some b
  | k :: path' =>
      match b with
      | BDict d =>
          match dict_get k d with
          | Some x => body_path path' x
          | None => None
          end
      | _ => None
      end
  end.

(** The clauses of a list-valued entry; none when the entry is absent. *)
Definition clauses_at (path : list string) (b : body) : list body :=
  match body_path path b with
  | Some (BList l) => l
  | _ => []
  end.

Definition is_es_search (e : event) : bool :=
  match e with EsSearch _ _ => true | _ => false end.

Definition is_redis (e : event) : bool :=
  match e with RedisSetex _ _ _ | RedisGet _ => true | _ => false end.

Definition backend_calls (t : list event) : nat := length (List.filter is_es_search t).

Definition cache_calls (t : list event) : nat := length (List.filter is_redis t).

Definition cache_writes (t : list event) : nat :=
  length (List.filter (fun e => match e with RedisSetex _ _ _ => true | _ => false end) t).

(** ** What the backend does with a request *)

Fixpoint pyval_eqb (a b : pyval) : bool :=
  match a, b with
  | PyNone, PyNone => true
  | PyBool x, PyBool y => Bool.eqb x y
  | PyInt x, PyInt y => Z.eqb x y
  | PyStr x, PyStr y => String.eqb x y
  | PyList l, PyList m =>
      (fix all (l m : list pyval) : bool :=
         match l, m with
         | [], [] => true
         | x :: l', y :: m' => pyval_eqb x y && all l' m'
         | _, _ => false
         end) l m
  | PyDict d, PyDict e =>
      (fix all (d e : list (string * pyval)) : bool :=
         match d, e with
         | [], [] => true
         | (j, x) :: d', (k, y) :: e' => String.eqb j k && pyval_eqb x y && all d' e'
         | _, _ => false
         end) d e
  | _, _ => false
  end.

(** A document meets an exact-match clause on [field] when the field
    holds the value, or holds a list with the value in it. *)
Definition term_holds (field : string) (value doc : pyval) : bool :=
  match py_getitem doc field with
  | Ok (PyList l) => existsb (pyval_eqb value) l
  | Ok x => pyval_eqb value x
  | Raise _ => false
  end.

(** The exact-match clauses under [query.bool.must]. *)
Definition must_terms (b : body) : list (string * pyval) :=
  flat_map (fun c =>
              match c with
              | BDict [(kind, BDict [(field, BVal value)])] =>
                  if String.eqb kind "term" then [(field, value)] else []
              | _ => []
              end)
           (clauses_at ["query"; "bool"; "must"] b).

(** The contract of a [bool] query's [must] list, for its exact-match
    clauses: every hit the backend returns meets each of them. *)
Definition honours_must_terms (es : string -> body -> result pyval) : Prop :=
  forall index b response docs,
    es index b = Ok response ->
    hit_sources response = Ok docs ->
    forall doc field value,
      In doc docs -> In (field, value) (must_terms b) ->
      term_holds field value doc = true.

(** A backend over a fixed list of documents that returns, in order, the
    ones meeting every exact-match clause under [must]. *)
Definition filtering_backend (docs : list pyval) (index : string) (b : body)
  : result pyval :=
  let keep doc :=
    forallb (fun fv => term_holds (fst fv) (snd fv) doc) (must_terms b) in
  Ok (PyDict [("hits", PyDict [("hits",
        PyList (map (fun doc => PyDict [("_source", doc)]) (List.filter keep docs)))])]).

(** ** A search as the cache sees it *)

(** What identifies a search to its caller: the query string, the
    filters and the index searched. *)
Record logical_query : Type := mkQuery {
  lq_query : string;
  lq_filters : list (string * pyval);
  lq_domain : string
}.

(** The key its results are cached under: [cache_search_results] and
    [get_cached_results] are given the query string and nothing else. *)
Definition key_of (l : logical_query) : string := cache_key (lq_query l).

(** ** Sample worlds and backends *)

Definition empty_world : world := mkWorld ∅ 0 None [].

Definition hello_doc : pyval :=
  PyDict [("content", PyStr "hello"); ("userId", PyStr "u1");
          ("roomId", PyStr "r1"); ("messageType", PyStr "text");
          ("metadata", PyDict [])].

(** A backend that answers every request with the one message. *)
Definition one_hit_backend (index : string) (b : body) : result pyval :=
  Ok (PyDict [("hits", PyDict [("hits", PyList [PyDict [("_source", hello_doc)]])])]).

Definition room_of (name : string) (members : list string) : pyval :=
  PyDict [("name", PyStr name); ("members", PyList (map PyStr members))].

Definition sample_rooms : list pyval :=
  [room_of "general" ["u1"; "u2"]; room_of "ops" ["u2"]; room_of "games" ["u1"]].

(** ** The pieces of a display *)

(** The text of a list display after its opening bracket, and of a dict
    display after its opening brace. *)
Fixpoint repr_items (l : list pyval) : string :=
  match l with
  | [] => "]"
  | [x] => py_repr x ++ "]"
  | x :: l' => py_repr x ++ ", " ++ repr_items l'
  end.

Fixpoint repr_pairs (d : list (string * pyval)) : string :=
  match d with
  | [] => "}"
  | [(k, x)] => str_repr k ++ ": " ++ py_repr x ++ "}"
  | (k, x) :: d' => str_repr k ++ ": " ++ py_repr x ++ ", " ++ repr_pairs d'
  end.

(** The text does not go on with a digit, so an integer before it ends
    where it was written to end. *)
Definition ends_number (rest : string) : bool :=
  match rest with
  | String c _ => negb (is_digit c)
  | "" => true
  end.

Definition head_is_space (s : string) : bool :=
  match s with
  | String " " _ => true
  | _ => false
  end.

(** The text starts a value or a key: it is not empty and its first
    character is no space and no closing bracket. *)
Definition starts_value (s : string) : bool :=
  match s with
  | String c _ =>
      negb (Ascii.eqb c " " || Ascii.eqb c "]" || Ascii.eqb c "}")
  | "" => false
  end.

Definition starts_display (s : string) : bool :=
  match s with
  | String c _ => (Ascii.eqb c "[" || Ascii.eqb c "{")%bool
  | "" => false
  end.

(** How deep the brackets of the value's display nest. *)
Fixpoint depth (v : pyval) : nat :=
  match v with
  | PyList l => S (List.list_max (map depth l))
  | PyDict d => S (List.list_max (map (fun kv => depth (snd kv)) d))
  | _ => 0%nat
  end.

(** Every string and every key of the value is ASCII text. *)
Fixpoint ascii_val (v : pyval) : bool :=
  match v with
  | PyStr s => ascii_text s
  | PyList l => forallb ascii_val l
  | PyDict d => forallb (fun kv => (ascii_text (fst kv) && ascii_val (snd kv))%bool) d
  | _ => true
  end.

(** The values [str] writes and [eval] reads back: dicts with unique
    keys, ASCII strings, integers short enough to be written, and
    brackets no deeper than [max_nesting]. *)
Definition literal_value (v : pyval) : Prop :=
  wf_val v /\ ascii_val v = true /\ ints_fit v = true /\
  (depth v <= max_nesting)%nat.

(** With fuel for its own text and room for its brackets, the reader
    returns the value and leaves what follows the text. *)
Definition reads_back (v : pyval) : Prop :=
  forall (fuel level : nat) (rest : string),
    (String.length (py_repr v) <= fuel)%nat ->
    (level + depth v <= max_nesting)%nat ->
    ends_number rest = true ->
    parse_value fuel level (py_repr v ++ rest) = POk v rest.

(** The text a get for [query] hands to [eval]: the entry under the
    query's key, unless the key is absent or expired or holds empty
    bytes. *)
Definition served (query : string) (w : world) : option string :=
  match redis_db w !! cache_key query with
  | Some (String c text, expiry) =>
      if Z.leb (clock w) expiry then Some (String c text) else None
  | _ => None
  end.

(** The text a get for [query] would evaluate, if there is one, is
    decided by [py_eval]: it is a display of literals or does not
    compile, and is not code. *)
Definition decided (query : string) (w : world) : Prop :=
  forall text, served query w = Some text -> py_eval text <> Other.

(** A store another writer shares: under the key of the query ["q"] it
    left an unfinished display, under the key of ["n"] a number. *)
Definition torn_world : world :=
  mkWorld (<[cache_key "n" := ("7", 1000)]> {[ cache_key "q" := ("[", 1000) ]})
          0 None [].

(** Two searches a caller tells apart: the same text, once over messages
    of one room and once over rooms. *)
Definition messages_in_room : logical_query :=
  mkQuery "standup" [("roomId", PyStr "r1")] "messages".

Definition rooms_named : logical_query :=
  mkQuery "standup" [] "rooms".

(** ** Induction over values *)

(** The induction principle that reaches the values inside lists and
    dicts. *)

Section PyvalInd.
Variable P : pyval -> Prop.
Hypothesis HNone : P PyNone.
Hypothesis HBool : forall b, P (PyBool b).
Hypothesis HInt : forall z, P (PyInt z).
Hypothesis HStr : forall s, P (PyStr s).
Hypothesis HList : forall l, Forall P l -> P (PyList l).
Hypothesis HDict : forall d, Forall (fun kv => P (snd kv)) d -> P (PyDict d).

Fixpoint pyval_nested_ind (v : pyval) : P v :=
  match v with
  | PyNone => HNone
  | PyBool b => HBool b
  | PyInt z => HInt z
  | PyStr s => HStr s
  | PyList l =>
      HList l ((fix go (l : list pyval) : Forall P l :=
                  match l with
                  | [] => @List.Forall_nil _ P
                  | x :: l' => @List.Forall_cons _ P x l' (pyval_nested_ind x) (go l')
                  end) l)
  | PyDict d =>
      HDict d ((fix go (d : list (string * pyval))
                  : Forall (fun kv => P (snd kv)) d :=
                  match d with
                  | [] => @List.Forall_nil _ _
                  | kv :: d' =>
                      @List.Forall_cons _ (fun kv => P (snd kv)) kv d'
                                  (pyval_nested_ind (snd kv)) (go d')
                  end) d)
  end.
End PyvalInd.

(** ** Indexing *)

(** A field of a document handed to [es.index]: a Python value, or the
    [datetime] that [datetime.now()] returned, as its instant. *)
Inductive field : Type :=
| FVal (v : pyval)
| FTime (t : Z).

(** [{...}] as [index_message], [index_user] and [index_room] build it:
    the fields in the order written. *)
Definition document : Type := list (string * field).

(** What the indexing methods read and change: the clock [datetime.now()]
    reads, and the calls made to [es.index], oldest first. *)
Record index_state : Type := mkIndexState {
  now : Z;
  index_calls : list (string * document)
}.

(** [d[k]] on an argument of type [Dict]. *)
Definition dict_item (d : list (string * pyval)) (k : string) : result pyval :=
  match dict_get k d with
  | Some x => Ok x
  | None => Raise (KeyError k)
  end.

(** [d.get(k, default)] *)
Definition dict_get_default (d : list (string * pyval)) (k : string) (default : pyval)
  : pyval :=
  match dict_get k d with
  | Some x => x
  | None => default
  end.

(** The [document=] argument of [index_message]; its entries are
    evaluated in the order written, so the first missing key is the one
    reported. *)
Definition message_document (t : Z) (message : list (string * pyval))
  : result document :=
  rbind (dict_item message "content") (fun content =>
  rbind (dict_item message "userId") (fun userId =>
  rbind (dict_item message "roomId") (fun roomId =>
  rbind (dict_item message "type") (fun messageType =>
  Ok [("content", FVal content);
      ("userId", FVal userId);
      ("roomId", FVal roomId);
      ("timestamp", FTime t);
      ("messageType", FVal messageType);
      ("metadata", FVal (dict_get_default message "metadata" (PyDict [])))])))).

(** The [document=] argument of [index_user]. *)
Definition user_document (user : list (string * pyval)) : result document :=
  rbind (dict_item user "id") (fun userId =>
  rbind (dict_item user "username") (fun username =>
  rbind (dict_item user "email") (fun email =>
  Ok [("userId", FVal userId);
      ("username", FVal username);
      ("email", FVal email);
      ("metadata", FVal (dict_get_default user "metadata" (PyDict [])))]))).

(** The [document=] argument of [index_room]. *)
Definition room_document (room : list (string * pyval)) : result document :=
  rbind (dict_item room "id") (fun roomId =>
  rbind (dict_item room "name") (fun name =>
  rbind (dict_item room "members") (fun members =>
  Ok [("roomId", FVal roomId);
      ("name", FVal name);
      ("description", FVal (dict_get_default room "description" (PyStr "")));
      ("members", FVal members);
      ("metadata", FVal (dict_get_default room "metadata" (PyDict [])))]))).

Section Indexer.

(** What [self.es.index(index=..., document=...)] answers: nothing the
    methods use, or the exception it raises. *)
Variable es_index_reply : string -> document -> result unit.

Definition es_index (index : string) (doc : document)
  : index_state -> result unit * index_state :=
  fun s => (es_index_reply index doc,
            mkIndexState (now s) (index_calls s ++ [(index, doc)])).

(** The document is built before the call: an exception while building
    it leaves the backend uncalled. *)
Definition index_message (message : list (string * pyval))
  : index_state -> result unit * index_state :=
  fun s =>
    match message_document (now s) message with
    | Ok doc => es_index "messages" doc s
    | Raise e => (Raise e, s)
    end.

Definition index_user (user : list (string * pyval))
  : index_state -> result unit * index_state :=
  fun s =>
    match user_document user with
    | Ok doc => es_index "users" doc s
    | Raise e => (Raise e, s)
    end.

Definition index_room (room : list (string * pyval))
  : index_state -> result unit * index_state :=
  fun s =>
    match room_document room with
    | Ok doc => es_index "rooms" doc s
    | Raise e => (Raise e, s)
    end.

End Indexer.

(** The first of [keys] that [d] lacks. *)
Fixpoint first_missing (keys : list string) (d : list (string * pyval))
  : option string :=
  match keys with
  | [] => None
  | k :: keys' =>
      match dict_get k d with
      | Some _ => first_missing keys' d
      | None => Some k
      end
  end.

(** A backend for indexing that accepts every document. *)
Definition accepting_index (index : string) (doc : document) : result unit := Ok tt.

Definition hello_message : list (string * pyval) :=
  [("content", PyStr "hello"); ("userId", PyStr "u1"); ("roomId", PyStr "r1");
   ("type", PyStr "text"); ("timestamp", PyInt 0); ("content_vector", PyList [PyInt 1])].

(** A backend that is down. *)
Definition down_backend (index : string) (b : body) : result pyval :=
  Raise ConnectionError.

(** The backend calls in a trace, in order. *)
Definition backend_requests (t : list event) : list (string * body) :=
  flat_map (fun e => match e with EsSearch index b => [(index, b)] | _ => [] end) t.

(** Each string is smaller than the next, in the order [sorted] uses. *)
Fixpoint strictly_ascending (l : list string) : bool :=
  match l with
  | [] => true
  | x :: l' =>
      match l' with
      | [] => true
      | y :: _ =>
          match String.compare x y with
          | Lt => strictly_ascending l'
          | _ => false
          end
      end
  end.

Definition empty_index : index_state := mkIndexState 1700000000 [].

(** * Properties *)

(** ** Strings *)

Lemma app_cons (c : ascii) (s t : string) : String c s ++ t = String c (s ++ t).
Proof. reflexivity. Qed.

Lemma app_nil_l (t : string) : "" ++ t = t.
Proof. reflexivity. Qed.

Lemma app_assoc (s t u : string) : (s ++ t) ++ u = s ++ (t ++ u).
Proof.
  induction s as [|c s IH]; [reflexivity|].
  rewrite !app_cons, IH. reflexivity.
Qed.

Lemma length_app (s t : string) :
  String.length (s ++ t) = (String.length s + String.length t)%nat.
Proof.
  induction s as [|c s IH]; [reflexivity|].
  rewrite app_cons. cbn [String.length]. rewrite IH. reflexivity.
Qed.

(** ** String literals read back *)

(** Case analysis on the eight bits of a character; the cases a
    hypothesis rules out are closed by computing it. *)
Ltac ascii_cases c :=
  destruct c as [[] [] [] [] [] [] [] []];
  intros;
  try match goal with
      | H : _ = true |- _ => discriminate H
      | H : _ = false |- _ => discriminate H
      end;
  try reflexivity.

Lemma parse_str_body_escape_char (q c : ascii) (t : string) :
  q = quote1 \/ q = quote2 ->
  Nat.ltb (nat_of_ascii c) 128 = true ->
  parse_str_body q (escape_char q c ++ t) = pcons c (parse_str_body q t).
Proof.
  intros [-> | ->]; ascii_cases c.
Qed.

Lemma py_repr_list (l : list pyval) : py_repr (PyList l) = "[" ++ repr_items l.
Proof. reflexivity. Qed.

Lemma py_repr_dict (d : list (string * pyval)) :
  py_repr (PyDict d) = "{" ++ repr_pairs d.
Proof. reflexivity. Qed.

Lemma wf_val_list (l : list pyval) : wf_val (PyList l) <-> Forall wf_val l.
Proof.
  cbn [wf_val].
  induction l as [|x l IH]; [split; constructor|].
  rewrite IH. split.
  - intros [Hx Hl]. constructor; assumption.
  - intros H. inversion H; subst. split; assumption.
Qed.

Lemma wf_val_dict (d : list (string * pyval)) :
  wf_val (PyDict d) <->
  List.NoDup (map fst d) /\ Forall (fun kv => wf_val (snd kv)) d.
Proof.
  cbn [wf_val].
  enough (E : (fix all (d : list (string * pyval)) : Prop :=
                 match d with
                 | [] => True
                 | (_, x) :: d' => wf_val x /\ all d'
                 end) d <-> Forall (fun kv => wf_val (snd kv)) d)
    by (rewrite E; reflexivity).
  induction d as [|[k x] d IH]; [split; constructor|].
  rewrite IH. split.
  - intros [Hx Hd]. constructor; assumption.
  - intros H. inversion H; subst. split; assumption.
Qed.

Lemma parse_str_body_escape (q : ascii) (s rest : string) :
  q = quote1 \/ q = quote2 ->
  ascii_text s = true ->
  parse_str_body q (escape q s ++ String q rest) = POk s rest.
Proof.
  intros Hq. induction s as [|c s IH]; intros Hs.
  - cbn [escape]. rewrite app_nil_l. cbn [parse_str_body].
    rewrite Ascii.eqb_refl. reflexivity.
  - cbn [ascii_text] in Hs. apply andb_prop in Hs. destruct Hs as [Hc Hs].
    cbn [escape]. rewrite app_assoc, parse_str_body_escape_char, IH by assumption.
    reflexivity.
Qed.

Lemma choose_quote_cases (s : string) :
  choose_quote s = quote1 \/ choose_quote s = quote2.
Proof. unfold choose_quote. destruct (_ && _)%bool; auto. Qed.

Lemma str_repr_app (s rest : string) :
  str_repr s ++ rest =
  String (choose_quote s) (escape (choose_quote s) s ++ String (choose_quote s) rest).
Proof. unfold str_repr. rewrite app_cons, app_assoc. reflexivity. Qed.

Lemma parse_key_str_repr (s rest : string) :
  ascii_text s = true ->
  parse_key (str_repr s ++ rest) = POk s rest.
Proof.
  intros Hs. rewrite str_repr_app. unfold parse_key.
  destruct (choose_quote_cases s) as [E | E]; rewrite E;
    (rewrite parse_str_body_escape by auto); reflexivity.
Qed.

Lemma parse_atom_str_repr (s rest : string) :
  ascii_text s = true ->
  parse_atom (str_repr s ++ rest) = POk (PyStr s) rest.
Proof.
  intros Hs. rewrite str_repr_app. unfold parse_atom.
  destruct (choose_quote_cases s) as [E | E]; rewrite E;
    (rewrite parse_str_body_escape by auto); reflexivity.
Qed.

(** ** Integers read back *)

Lemma span_digits_uint (d : uint) (rest : string) :
  ends_number rest = true ->
  span_digits (NilEmpty.string_of_uint d ++ rest) = (NilEmpty.string_of_uint d, rest).
Proof.
  intros Hrest. induction d;
    cbn [NilEmpty.string_of_uint]; rewrite ?app_cons;
    try (cbn [span_digits]; rewrite IHd; reflexivity).
  rewrite app_nil_l. destruct rest as [|c rest]; [reflexivity|].
  cbn [span_digits]. cbn [ends_number] in Hrest.
  destruct (is_digit c); [discriminate | reflexivity].
Qed.

Lemma parse_nat_repr (n : N) (rest : string) :
  ends_number rest = true ->
  Nat.leb (String.length (nat_repr n)) max_str_digits = true ->
  parse_nat (nat_repr n ++ rest) = POk n rest.
Proof.
  intros Hrest Hlen. unfold parse_nat. unfold nat_repr at 1.
  rewrite span_digits_uint by assumption.
  rewrite NilEmpty.usu, DecimalN.Unsigned.of_to.
  fold (nat_repr n). rewrite String.eqb_refl, Hlen. reflexivity.
Qed.

(** A number prints with a digit first. *)
Lemma nat_repr_head (n : N) :
  exists c s, nat_repr n = String c s /\ is_digit c = true.
Proof.
  unfold nat_repr.
  assert (H : N.to_uint n <> Nil).
  { destruct n; [discriminate | apply DecimalPos.Unsigned.to_uint_nonnil]. }
  destruct (N.to_uint n); try congruence; cbn [NilEmpty.string_of_uint];
    eexists _, _; (split; [reflexivity|reflexivity]).
Qed.

Lemma parse_atom_digit (c : ascii) (s : string) :
  is_digit c = true ->
  parse_atom (String c s) =
  match parse_nat (String c s) with
  | POk n rest => POk (PyInt (Z.of_N n)) rest
  | PErr e => PErr e
  | PBeyond => PBeyond
  end.
Proof.
  ascii_cases c.
Qed.

Lemma parse_atom_int_repr (z : Z) (rest : string) :
  ends_number rest = true ->
  Nat.leb (digits z) max_str_digits = true ->
  parse_atom (int_repr z ++ rest) = POk (PyInt z) rest.
Proof.
  intros Hrest Hlen.
  assert (Hnat : forall n,
             Nat.leb (String.length (nat_repr n)) max_str_digits = true ->
             parse_atom (nat_repr n ++ rest) = POk (PyInt (Z.of_N n)) rest).
  { intros n Hn. destruct (nat_repr_head n) as (c & s & E & Hc).
    pose proof (parse_nat_repr n rest Hrest Hn) as Hp.
    rewrite E in Hp |- *. rewrite app_cons in *.
    rewrite parse_atom_digit, Hp by assumption. reflexivity. }
  destruct z as [|p|p]; cbn [int_repr].
  - apply Hnat, Hlen.
  - apply (Hnat (Npos p)), Hlen.
  - rewrite app_cons. cbn [parse_atom].
    change (Ascii.eqb "-" quote1 || Ascii.eqb "-" quote2)%bool with false.
    cbn iota. rewrite Ascii.eqb_refl, parse_nat_repr by assumption. reflexivity.
Qed.

(** ** Where a display starts *)

Lemma skip_spaces_id (s : string) : head_is_space s = false -> skip_spaces s = s.
Proof.
  destruct s as [|c s]; [reflexivity|].
  ascii_cases c.
Qed.

Lemma head_is_space_digit (c : ascii) (s : string) :
  is_digit c = true -> head_is_space (String c s) = false.
Proof.
  ascii_cases c.
Qed.

Lemma py_repr_head (v : pyval) (rest : string) :
  head_is_space (py_repr v ++ rest) = false.
Proof.
  destruct v as [|[]|z|s|l|d]; try reflexivity.
  - destruct z as [|p|p]; try reflexivity.
    cbn [py_repr int_repr].
    destruct (nat_repr_head (Z.to_N (Zpos p))) as (c & s & E & Hc).
    rewrite E, app_cons. apply head_is_space_digit, Hc.
  - cbn [py_repr]. rewrite str_repr_app.
    destruct (choose_quote_cases s) as [E | E]; rewrite E; reflexivity.
Qed.

Lemma skip_spaces_py_repr (v : pyval) (rest : string) :
  skip_spaces (py_repr v ++ rest) = py_repr v ++ rest.
Proof. apply skip_spaces_id, py_repr_head. Qed.

(** ** A display with unique keys is the dict it lists *)

Lemma dict_set_fresh {A} (k : string) (v : A) (d : list (string * A)) :
  ~ In k (map fst d) -> dict_set k v d = (d ++ [(k, v)])%list.
Proof.
  induction d as [|[k' v'] d IH]; intros Hk; [reflexivity|].
  cbn [dict_set]. cbn [map fst In] in Hk.
  destruct (String.eqb_spec k k') as [-> | Hne]; [tauto|].
  rewrite IH by tauto. reflexivity.
Qed.

Lemma dict_of_items_from {A} (items acc : list (string * A)) :
  List.NoDup (map fst (acc ++ items)%list) ->
  fold_left (fun d kv => dict_set (fst kv) (snd kv) d) items acc = (acc ++ items)%list.
Proof.
  revert acc. induction items as [|[k v] items IH]; intros acc Hnd.
  - cbn [fold_left]. rewrite List.app_nil_r. reflexivity.
  - cbn [fold_left fst snd].
    assert (Hk : ~ In k (map fst acc)).
    { rewrite List.map_app in Hnd. cbn [map fst] in Hnd.
      apply List.NoDup_remove_2 in Hnd. intros Hin. apply Hnd.
      apply List.in_or_app. left. exact Hin. }
    rewrite dict_set_fresh by exact Hk.
    rewrite IH; rewrite <- List.app_assoc; [reflexivity | exact Hnd].
Qed.

Lemma dict_of_items_nodup {A} (items : list (string * A)) :
  List.NoDup (map fst items) -> dict_of_items items = items.
Proof. intros H. unfold dict_of_items. rewrite dict_of_items_from; auto. Qed.

(** ** One step of the reader *)

Lemma parse_value_space (fuel level : nat) (s : string) :
  parse_value fuel level (String " " s) = parse_value fuel level s.
Proof. destruct fuel; reflexivity. Qed.

Lemma parse_items_space (fuel level : nat) (s : string) :
  parse_items fuel level (String " " s) = parse_items fuel level s.
Proof. destruct fuel; reflexivity. Qed.

Lemma parse_pairs_space (fuel level : nat) (s : string) :
  parse_pairs fuel level (String " " s) = parse_pairs fuel level s.
Proof. destruct fuel; reflexivity. Qed.

Lemma parse_value_atom (fuel level : nat) (s : string) :
  starts_value s = true -> starts_display s = false ->
  parse_value (S fuel) level s = parse_atom s.
Proof.
  destruct s as [|c s]; [discriminate|].
  ascii_cases c.
Qed.

Lemma parse_value_list (fuel level : nat) (s : string) :
  Nat.leb max_nesting level = false ->
  parse_value (S fuel) level (String "[" s) =
  match parse_items fuel (S level) s with
  | POk l rest => POk (PyList l) rest
  | PErr e => PErr e
  | PBeyond => PBeyond
  end.
Proof.
  intros H. cbn [parse_value skip_spaces].
  change (Ascii.eqb "[" "[") with true. cbn iota. rewrite H. reflexivity.
Qed.

Lemma parse_value_dict (fuel level : nat) (s : string) :
  Nat.leb max_nesting level = false ->
  parse_value (S fuel) level (String "{" s) =
  match parse_pairs fuel (S level) s with
  | POk d rest => POk (PyDict (dict_of_items d)) rest
  | PErr e => PErr e
  | PBeyond => PBeyond
  end.
Proof.
  intros H. cbn [parse_value skip_spaces].
  change (Ascii.eqb "{" "[") with false. change (Ascii.eqb "{" "{") with true.
  cbn iota. rewrite H. reflexivity.
Qed.

Lemma parse_items_close (fuel level : nat) (s : string) :
  parse_items (S fuel) level (String "]" s) = POk [] s.
Proof. reflexivity. Qed.

Lemma parse_pairs_close (fuel level : nat) (s : string) :
  parse_pairs (S fuel) level (String "}" s) = POk [] s.
Proof. reflexivity. Qed.

Lemma parse_items_value (fuel level : nat) (s : string) :
  starts_value s = true ->
  parse_items (S fuel) level s =
  match parse_value fuel level s with
  | POk v rest =>
      match skip_spaces rest with
      | "" => PErr SyntaxError
      | String c' rest' =>
          if Ascii.eqb c' "]" then POk [v] rest'
          else if Ascii.eqb c' "," then
            match parse_items fuel level rest' with
            | POk l rest'' => POk (v :: l) rest''
            | PErr e => PErr e
            | PBeyond => PBeyond
            end
          else PBeyond
      end
  | PErr e => PErr e
  | PBeyond => PBeyond
  end.
Proof.
  destruct s as [|c s]; [discriminate|].
  ascii_cases c.
Qed.

Lemma parse_pairs_key (fuel level : nat) (s : string) :
  starts_value s = true ->
  parse_pairs (S fuel) level s =
  match parse_key s with
  | POk k rest =>
      match skip_spaces rest with
      | "" => PErr SyntaxError
      | String c1 rest1 =>
          if Ascii.eqb c1 ":" then
            match parse_value fuel level rest1 with
            | POk v rest2 =>
                match skip_spaces rest2 with
                | "" => PErr SyntaxError
                | String c2 rest3 =>
                    if Ascii.eqb c2 "}" then POk [(k, v)] rest3
                    else if Ascii.eqb c2 "," then
                      match parse_pairs fuel level rest3 with
                      | POk d rest4 => POk ((k, v) :: d) rest4
                      | PErr e => PErr e
                      | PBeyond => PBeyond
                      end
                    else PBeyond
                end
            | PErr e => PErr e
            | PBeyond => PBeyond
            end
          else PBeyond
      end
  | PErr e => PErr e
  | PBeyond => PBeyond
  end.
Proof.
  destruct s as [|c s]; [discriminate|].
  ascii_cases c.
Qed.

Lemma starts_value_digit (c : ascii) (s : string) :
  is_digit c = true ->
  starts_value (String c s) = true /\ starts_display (String c s) = false.
Proof.
  ascii_cases c; split; reflexivity.
Qed.

Lemma starts_value_str_repr (s rest : string) :
  starts_value (str_repr s ++ rest) = true /\
  starts_display (str_repr s ++ rest) = false.
Proof.
  rewrite str_repr_app.
  destruct (choose_quote_cases s) as [E | E]; rewrite E; split; reflexivity.
Qed.

Lemma starts_value_int_repr (z : Z) (rest : string) :
  starts_value (int_repr z ++ rest) = true /\
  starts_display (int_repr z ++ rest) = false.
Proof.
  assert (Hnat : forall n, starts_value (nat_repr n ++ rest) = true /\
                           starts_display (nat_repr n ++ rest) = false).
  { intros n. destruct (nat_repr_head n) as (c & s & E & Hc).
    rewrite E, app_cons. apply starts_value_digit, Hc. }
  destruct z as [|p|p]; cbn [int_repr]; try apply Hnat.
  split; reflexivity.
Qed.

Lemma starts_value_py_repr (v : pyval) (rest : string) :
  starts_value (py_repr v ++ rest) = true.
Proof.
  destruct v as [|[]|z|s|l|d]; try reflexivity.
  - apply starts_value_int_repr.
  - apply starts_value_str_repr.
Qed.

Lemma length_py_repr_pos (v : pyval) : (1 <= String.length (py_repr v))%nat.
Proof.
  pose proof (starts_value_py_repr v "") as H.
  destruct (py_repr v ++ "") as [|c s] eqn:E; [discriminate|].
  apply (f_equal String.length) in E. rewrite length_app in E.
  cbn [String.length] in E. lia.
Qed.

(** ** Displays read back *)

Lemma parse_items_repr (l : list pyval) :
  Forall reads_back l ->
  forall (fuel level : nat) (rest : string),
    (String.length (repr_items l) <= fuel)%nat ->
    Forall (fun x => (level + depth x <= max_nesting)%nat) l ->
    parse_items fuel level (repr_items l ++ rest) = POk l rest.
Proof.
  induction 1 as [|x l Hx Hl IH]; intros fuel level rest Hfuel Hdep.
  - destruct fuel as [|fuel]; [cbn in Hfuel; lia|]. reflexivity.
  - inversion Hdep as [|x' l' Hdx Hdl]; subst. destruct l as [|y l].
    + cbn [repr_items] in *. rewrite length_app in Hfuel. cbn [String.length] in Hfuel.
      destruct fuel as [|fuel]; [lia|].
      rewrite app_assoc.
      rewrite parse_items_value by apply starts_value_py_repr.
      rewrite Hx by (reflexivity || lia). reflexivity.
    + change (repr_items (x :: y :: l))
        with (py_repr x ++ String "," (String " " (repr_items (y :: l)))) in *.
      rewrite length_app in Hfuel. cbn [String.length] in Hfuel.
      destruct fuel as [|fuel]; [lia|].
      rewrite app_assoc, !app_cons.
      rewrite parse_items_value by apply starts_value_py_repr.
      rewrite Hx by (reflexivity || lia).
      cbn [skip_spaces]. change (Ascii.eqb "," "]") with false.
      change (Ascii.eqb "," ",") with true. cbn iota.
      rewrite parse_items_space, IH by (assumption || lia). reflexivity.
Qed.

Lemma parse_pairs_repr (d : list (string * pyval)) :
  Forall (fun kv => reads_back (snd kv)) d ->
  forall (fuel level : nat) (rest : string),
    (String.length (repr_pairs d) <= fuel)%nat ->
    Forall (fun kv => (level + depth (snd kv) <= max_nesting)%nat) d ->
    Forall (fun kv => ascii_text (fst kv) = true) d ->
    parse_pairs fuel level (repr_pairs d ++ rest) = POk d rest.
Proof.
  induction 1 as [|[k x] d Hx Hd IH]; intros fuel level rest Hfuel Hdep Hkeys.
  - destruct fuel as [|fuel]; [cbn in Hfuel; lia|]. reflexivity.
  - inversion Hdep as [|kv' d' Hdx Hdl]; subst.
    inversion Hkeys as [|kv'' d'' Hk Hks]; subst.
    cbn [fst snd] in Hx, Hdx, Hk. destruct d as [|[k' y] d].
    + change (repr_pairs [(k, x)])
        with (str_repr k ++ String ":" (String " " (py_repr x ++ "}"))) in *.
      rewrite length_app in Hfuel. cbn [String.length] in Hfuel.
      rewrite length_app in Hfuel. cbn [String.length] in Hfuel.
      destruct fuel as [|fuel]; [lia|].
      rewrite app_assoc, !app_cons, app_assoc.
      rewrite parse_pairs_key by apply starts_value_str_repr.
      rewrite parse_key_str_repr by exact Hk. cbn [skip_spaces].
      change (Ascii.eqb ":" ":") with true. cbn iota.
      rewrite parse_value_space, Hx by (reflexivity || lia). reflexivity.
    + change (repr_pairs ((k, x) :: (k', y) :: d))
        with (str_repr k ++ String ":" (String " "
                (py_repr x ++ String "," (String " " (repr_pairs ((k', y) :: d)))))) in *.
      rewrite length_app in Hfuel. cbn [String.length] in Hfuel.
      rewrite length_app in Hfuel. cbn [String.length] in Hfuel.
      destruct fuel as [|fuel]; [lia|].
      rewrite app_assoc, !app_cons, app_assoc, !app_cons.
      rewrite parse_pairs_key by apply starts_value_str_repr.
      rewrite parse_key_str_repr by exact Hk. cbn [skip_spaces].
      change (Ascii.eqb ":" ":") with true. cbn iota.
      rewrite parse_value_space, Hx by (reflexivity || lia).
      cbn [skip_spaces]. change (Ascii.eqb "," "}") with false.
      change (Ascii.eqb "," ",") with true. cbn iota.
      rewrite parse_pairs_space, IH by (assumption || lia). reflexivity.
Qed.

(** ** The parts of a value in the domain *)

Lemma list_max_In (n : nat) (l : list nat) : In n l -> (n <= List.list_max l)%nat.
Proof.
  induction l as [|m l IH]; intros Hin; [destruct Hin|].
  cbn [List.list_max fold_right]. destruct Hin as [-> | Hin].
  - apply Nat.le_max_l.
  - etransitivity; [apply IH, Hin | apply Nat.le_max_r].
Qed.

Lemma depth_list_In (x : pyval) (l : list pyval) :
  In x l -> (S (depth x) <= depth (PyList l))%nat.
Proof.
  intros Hin. cbn [depth]. apply le_n_S, list_max_In.
  apply List.in_map_iff. exists x. split; [reflexivity | exact Hin].
Qed.

Lemma depth_dict_In (kv : string * pyval) (d : list (string * pyval)) :
  In kv d -> (S (depth (snd kv)) <= depth (PyDict d))%nat.
Proof.
  intros Hin. cbn [depth]. apply le_n_S, list_max_In.
  apply List.in_map_iff. exists kv. split; [reflexivity | exact Hin].
Qed.

Lemma parse_value_repr (v : pyval) :
  wf_val v -> ascii_val v = true -> ints_fit v = true -> reads_back v.
Proof.
  unfold ints_fit.
  induction v as [| b | z | s | l IH | d IH] using pyval_nested_ind;
    intros Hwf Hascii Hints fuel level rest Hfuel Hdepth Hrest;
    (destruct fuel as [|fuel];
     [match type of Hfuel with
      | (String.length (py_repr ?v) <= _)%nat => pose proof (length_py_repr_pos v)
      end; lia|]).
  - reflexivity.
  - destruct b; reflexivity.
  - rewrite parse_value_atom by apply starts_value_int_repr.
    apply parse_atom_int_repr; [exact Hrest | exact Hints].
  - rewrite parse_value_atom by apply starts_value_str_repr.
    apply parse_atom_str_repr, Hascii.
  - apply wf_val_list in Hwf.
    cbn [ascii_val] in Hascii. cbn [ints_within] in Hints.
    rewrite List.forallb_forall in Hascii, Hints.
    assert (Hlevel : Nat.leb max_nesting level = false).
    { apply Nat.leb_gt. cbn [depth] in Hdepth. lia. }
    change (py_repr (PyList l) ++ rest) with (String "[" (repr_items l ++ rest)).
    change (String.length (py_repr (PyList l)))
      with (S (String.length (repr_items l))) in Hfuel.
    rewrite parse_value_list, parse_items_repr; [reflexivity| | lia | | exact Hlevel].
    + rewrite List.Forall_forall in *. intros x Hin. apply IH; auto.
    + rewrite List.Forall_forall. intros x Hin.
      pose proof (depth_list_In x l Hin). lia.
  - apply wf_val_dict in Hwf. destruct Hwf as [Hnd Hwf].
    cbn [ascii_val] in Hascii. cbn [ints_within] in Hints.
    rewrite List.forallb_forall in Hascii, Hints.
    assert (Hlevel : Nat.leb max_nesting level = false).
    { apply Nat.leb_gt. cbn [depth] in Hdepth. lia. }
    change (py_repr (PyDict d) ++ rest) with (String "{" (repr_pairs d ++ rest)).
    change (String.length (py_repr (PyDict d)))
      with (S (String.length (repr_pairs d))) in Hfuel.
    rewrite parse_value_dict, parse_pairs_repr; [| | lia | | | exact Hlevel].
    + rewrite dict_of_items_nodup by exact Hnd. reflexivity.
    + rewrite List.Forall_forall in *. intros x Hin. apply IH; auto.
      specialize (Hascii x Hin). apply andb_prop in Hascii. tauto.
    + rewrite List.Forall_forall. intros x Hin.
      pose proof (depth_dict_In x d Hin). lia.
    + rewrite List.Forall_forall. intros x Hin.
      specialize (Hascii x Hin). apply andb_prop in Hascii. tauto.
Qed.

Lemma app_nil_r (s : string) : s ++ "" = s.
Proof.
  induction s as [|c s IHs]; [reflexivity|].
  rewrite app_cons, IHs. reflexivity.
Qed.

(** [eval(str(v)) == v] on the values [str] writes and [eval] reads. *)
Lemma py_eval_repr (v : pyval) :
  literal_value v -> py_eval (py_repr v) = Evaluates v.
Proof.
  intros (Hwf & Hascii & Hints & Hdepth). unfold py_eval.
  pose proof (parse_value_repr v Hwf Hascii Hints
                (2 * String.length (py_repr v) + 2)%nat 0%nat "") as H.
  rewrite app_nil_r in H.
  rewrite H by (reflexivity || exact Hdepth || lia). reflexivity.
Qed.

Lemma py_str_list (l : list pyval) :
  ints_fit (PyList l) = true -> py_str (PyList l) = Ok (py_repr (PyList l)).
Proof. intros Hints. unfold py_str. rewrite Hints. reflexivity. Qed.

(** ** The result cache *)

Lemma cache_search_results_run (query : string) (results : list pyval) (w : world) :
  ints_fit (PyList results) = true ->
  cache_search_results query results w =
  (Ok tt,
   mkWorld (<[cache_key query := (py_repr (PyList results), clock w + 300)]> (redis_db w))
           (clock w) (vocabulary_ w)
           (trace w ++ [RedisSetex (cache_key query) 300 (py_repr (PyList results))])).
Proof.
  intros Hfit. unfold cache_search_results, bind, lift, py_str.
  rewrite Hfit. reflexivity.
Qed.

Lemma cache_search_results_raise (query : string) (results : list pyval) (w : world) :
  ints_fit (PyList results) = false ->
  exists msg, cache_search_results query results w = (Raise (ValueError msg), w).
Proof.
  intros Hfit. unfold cache_search_results, bind, lift, py_str.
  rewrite Hfit. eexists. reflexivity.
Qed.

Lemma redis_get_run (key : string) (w : world) :
  redis_get key w =
  (Ok (match redis_db w !! key with
       | Some (value, expiry) => if Z.leb (clock w) expiry then Some value else None
       | None => None
       end),
   log (RedisGet key) w).
Proof.
  unfold redis_get. cbn [log redis_db clock].
  destruct (redis_db w !! key) as [[value expiry]|]; [|reflexivity].
  destruct (clock w <=? expiry); reflexivity.
Qed.

Lemma get_cached_results_run (interp : string -> M pyval) (query : string) (w : world) :
  get_cached_results interp query w =
  match fst (redis_get (cache_key query) w) with
  | Ok (Some (String c text)) =>
      eval_cached interp (String c text) (log (RedisGet (cache_key query)) w)
  | _ => (Ok PyNone, log (RedisGet (cache_key query)) w)
  end.
Proof.
  unfold get_cached_results, bind. rewrite redis_get_run. cbn [fst].
  destruct (match redis_db w !! cache_key query with
            | Some (value, expiry) => if clock w <=? expiry then Some value else None
            | None => None
            end) as [[|c text]|]; reflexivity.
Qed.

Lemma py_repr_list_nonempty (l : list pyval) :
  exists c text, py_repr (PyList l) = String c text.
Proof. eexists _, _. rewrite py_repr_list. reflexivity. Qed.

(** What a get finds after a put of a result set that can be written. *)
Lemma get_after_put (interp : string -> M pyval) (query : string) (R : list pyval)
    (w : world) (dt : Z) :
  literal_value (PyList R) ->
  fst (get_cached_results interp query (sleep dt (snd (cache_search_results query R w)))) =
  if dt <=? 300 then Ok (PyList R) else Ok PyNone.
Proof.
  intros Hlit. pose proof Hlit as (_ & _ & Hfit & _).
  rewrite get_cached_results_run, redis_get_run, cache_search_results_run by exact Hfit.
  cbn [fst snd sleep redis_db clock]. rewrite lookup_insert_eq.
  replace (clock w + dt <=? clock w + 300) with (dt <=? 300)
    by (destruct (Z.leb_spec dt 300), (Z.leb_spec (clock w + dt) (clock w + 300));
        reflexivity || lia).
  destruct (dt <=? 300); [|reflexivity].
  destruct (py_repr_list_nonempty R) as (c & text & E). rewrite E, <- E.
  unfold eval_cached. rewrite py_eval_repr by exact Hlit. reflexivity.
Qed.

Lemma literal_hello : literal_value (PyList [hello_doc]).
Proof.
  refine (conj _ (conj _ (conj _ _))).
  - apply wf_val_list. repeat constructor; cbn; intuition congruence.
  - vm_compute; reflexivity.
  - vm_compute; reflexivity.
  - vm_compute. lia.
Qed.







(** ** Requests *)

Lemma messages_body_filtered (query : string) (kv : string * pyval)
    (d : list (string * pyval)) :
  messages_body query (Some (kv :: d)) =
  Ok (BDict [("query", BDict [("bool", BDict
                [("must", BList [match_clause "content" query]);
                 ("filter", BList (map (fun kv => term_clause (fst kv) (snd kv))
                                       (kv :: d)))])]);
             ("sort", BList [BDict [("timestamp", BVal (PyStr "desc"))]]);
             ("size", BVal (PyInt 50))]).
Proof. reflexivity. Qed.

Lemma messages_body_unfiltered (query : string) (filters : option (list (string * pyval))) :
  truthy filters = false -> messages_body query filters = Ok (messages_literal query).
Proof. unfold messages_body. intros ->. reflexivity. Qed.

(** The request is built for every query and every filter mapping. *)
Lemma messages_body_total (query : string) (filters : option (list (string * pyval))) :
  exists b, messages_body query filters = Ok b.
Proof.
  destruct filters as [[|kv d]|]; eexists; reflexivity.
Qed.

(** A message search calls the backend once, with the body built, and
    nothing else. *)
Lemma search_messages_world (es : string -> body -> result pyval)
    (query : string) (filters : option (list (string * pyval))) (b : body) (w : world) :
  messages_body query filters = Ok b ->
  snd (search_messages es query filters w) = log (EsSearch "messages" b) w /\
  fst (search_messages es query filters w) = rbind (es "messages" b) hit_sources.
Proof.
  intros Hb. unfold search_messages, bind, lift, es_search. rewrite Hb.
  destruct (es "messages" b); split; reflexivity.
Qed.

(** C6. For every query string and every filter mapping, the body sent
    to the [messages] index is the one written here: a [bool] query
    whose [must] list holds exactly one clause, a [match] on [content]
    with the raw query string; whose [filter] list, present when there
    is a filter, holds one [term] clause per (field, value) pair and no
    other kind of clause; a sort by [timestamp] descending; and the size
    50. The search makes this one request and returns the sources of the
    hits of its response. *)
Theorem search_messages_request (es : string -> body -> result pyval)
    (query : string) (filters : option (list (string * pyval))) (w : world) :
  exists b,
    b = BDict
          [("query", BDict [("bool", BDict
              (("must", BList [BDict [("match",
                                       BDict [("content", BVal (PyStr query))])]])
               :: match filters with
                  | Some (kv :: d) =>
                      [("filter",
                        BList (map (fun kv => BDict [("term",
                                                      BDict [(fst kv, BVal (snd kv))])])
                                   (kv :: d)))]
                  | _ => []
                  end))]);
           ("sort", BList [BDict [("timestamp", BVal (PyStr "desc"))]]);
           ("size", BVal (PyInt 50))] /\
    messages_body query filters = Ok b /\
    trace (snd (search_messages es query filters w)) =
      (trace w ++ [EsSearch "messages" b])%list /\
    fst (search_messages es query filters w) = rbind (es "messages" b) hit_sources.
Proof.
  eexists. split; [reflexivity|].
  assert (Hb : messages_body query filters = Ok
    (BDict
          [("query", BDict [("bool", BDict
              (("must", BList [BDict [("match",
                                       BDict [("content", BVal (PyStr query))])]])
               :: match filters with
                  | Some (kv :: d) =>
                      [("filter",
                        BList (map (fun kv => BDict [("term",
                                                      BDict [(fst kv, BVal (snd kv))])])
                                   (kv :: d)))]
                  | _ => []
                  end))]);
           ("sort", BList [BDict [("timestamp", BVal (PyStr "desc"))]]);
           ("size", BVal (PyInt 50))]))
    by (destruct filters as [[|kv d]|]; reflexivity).
  split; [exact Hb|].
  destruct (search_messages_world es query filters _ w Hb) as [Hw Hr].
  split; [rewrite Hw; reflexivity | exact Hr].
Qed.

(** C10. Without a filters argument and with an empty filter mapping the
    request is the same: the literal, with no [filter] entry, and so the
    same match clause, sort and size; the two searches are the same
    computation. *)
Theorem search_messages_no_filters (es : string -> body -> result pyval)
    (q : string) :
  messages_body q None = Ok (messages_literal q) /\
  messages_body q (Some []) = Ok (messages_literal q) /\
  body_path ["query"; "bool"; "filter"] (messages_literal q) = None /\
  clauses_at ["query"; "bool"; "must"] (messages_literal q) = [match_clause "content" q] /\
  body_path ["sort"] (messages_literal q)
    = Some (BList [BDict [("timestamp", BVal (PyStr "desc"))]]) /\
  body_path ["size"] (messages_literal q) = Some (BVal (PyInt 50)) /\
  forall w, search_messages es q None w = search_messages es q (Some []) w.
Proof. repeat split; reflexivity. Qed.

(** ** Searches and the cache *)

Lemma backend_calls_log (e : event) (w : world) :
  backend_calls (trace (log e w)) =
  (backend_calls (trace w) + if is_es_search e then 1 else 0)%nat.
Proof.
  unfold backend_calls, log. cbn [trace].
  rewrite List.filter_app, List.length_app. cbn [List.filter].
  destruct (is_es_search e); reflexivity.
Qed.

Lemma cache_calls_log (e : event) (w : world) :
  cache_calls (trace (log e w)) =
  (cache_calls (trace w) + if is_redis e then 1 else 0)%nat.
Proof.
  unfold cache_calls, log. cbn [trace].
  rewrite List.filter_app, List.length_app. cbn [List.filter].
  destruct (is_redis e); reflexivity.
Qed.

(** C5, as the code has it. A message search issues exactly one backend
    call and no cache read or write, and leaves the store as it was,
    whatever the store holds for the query. *)
Theorem search_messages_calls (es : string -> body -> result pyval)
    (query : string) (filters : option (list (string * pyval))) (w : world) :
  backend_calls (trace (snd (search_messages es query filters w))) =
    S (backend_calls (trace w)) /\
  cache_calls (trace (snd (search_messages es query filters w))) =
    cache_calls (trace w) /\
  redis_db (snd (search_messages es query filters w)) = redis_db w.
Proof.
  destruct (messages_body_total query filters) as [b Hb].
  destruct (search_messages_world es query filters b w Hb) as [-> _].
  rewrite backend_calls_log, cache_calls_log. cbn [is_es_search is_redis log redis_db].
  repeat split; lia.
Qed.

(** C5, as stated, fails: two identical message searches in a row, with
    no time passing, issue two backend calls and no cache write; and a
    search made while the cache holds results for its query still calls
    the backend. *)
Lemma two_searches_two_backend_calls :
  let w1 := snd (search_messages one_hit_backend "x" None empty_world) in
  let w2 := snd (search_messages one_hit_backend "x" None w1) in
  let c1 := snd (cache_search_results "x" [hello_doc] empty_world) in
  backend_calls (trace w2) = 2%nat /\
  cache_writes (trace w2) = 0%nat /\
  (forall interp : string -> M pyval,
     fst (get_cached_results interp "x" c1) = Ok (PyList [hello_doc])) /\
  backend_calls (trace (snd (search_messages one_hit_backend "x" None c1))) = 1%nat.
Proof. vm_compute. repeat split; reflexivity. Qed.

(** C7, as the code has it. No intent is rejected: for every query
    string and filter mapping the message request is built and sent to
    the backend, and the search returns what the response holds. The size
    limit is the constant 50, and 20 in a semantic request. A semantic
    search with an empty query fails in the vectorizer, with its
    [ValueError], once the vectorizer has been called and before any
    backend call. *)
Theorem search_messages_accepts (es : string -> body -> result pyval)
    (query : string) (filters : option (list (string * pyval))) (w : world)
    (query_vector : list float) :
  (exists b,
     messages_body query filters = Ok b /\
     body_path ["size"] b = Some (BVal (PyInt 50)) /\
     snd (search_messages es query filters w) = log (EsSearch "messages" b) w /\
     fst (search_messages es query filters w) = rbind (es "messages" b) hit_sources) /\
  body_path ["size"] (semantic_body query_vector) = Some (BVal (PyInt 20)) /\
  (forall context,
     fst (semantic_search es "" context w) =
       Raise (ValueError
                "empty vocabulary; perhaps the documents only contain stop words") /\
     trace (snd (semantic_search es "" context w)) = (trace w ++ [TfidfFit [""]])%list).
Proof.
  split; [|split; [reflexivity | split; reflexivity]].
  destruct (messages_body_total query filters) as [b Hb].
  exists b. split; [exact Hb|].
  split; [|exact (search_messages_world es query filters b w Hb)].
  destruct filters as [[|kv d]|]; cbv [messages_body truthy] in Hb;
    injection Hb as <-; reflexivity.
Qed.

(** C7, as stated, fails: a message search with an empty query string,
    no filters and no semantic context is not rejected. It calls the
    backend and returns the hit. *)
Lemma empty_query_reaches_backend :
  fst (search_messages one_hit_backend "" None empty_world) = Ok [hello_doc] /\
  trace (snd (search_messages one_hit_backend "" None empty_world)) =
    [EsSearch "messages" (messages_literal "")].
Proof. split; reflexivity. Qed.

(** ** The cache key *)

Lemma cache_key_inj (q1 q2 : string) : cache_key q1 = cache_key q2 -> q1 = q2.
Proof. unfold cache_key. intros H. injection H as H. exact H. Qed.

(** C3, as the code has it. The key is the prefix [search:] followed by
    the raw query string, and two searches have the same key exactly
    when their query strings are equal, whatever their filters and
    domains. *)
Theorem cache_key_of_query (l1 l2 : logical_query) :
  key_of l1 = "search:" ++ lq_query l1 /\
  (key_of l1 = key_of l2 <-> lq_query l1 = lq_query l2).
Proof.
  split; [reflexivity|]. unfold key_of. split.
  - apply cache_key_inj.
  - intros ->. reflexivity.
Qed.

(** C3, as stated, fails: two searches that differ in filters and in
    domain have the same key, and the results cached for one are what a
    get for the other returns. *)
Lemma different_searches_same_key :
  lq_filters messages_in_room <> lq_filters rooms_named /\
  lq_domain messages_in_room <> lq_domain rooms_named /\
  key_of messages_in_room = key_of rooms_named /\
  (forall interp : string -> M pyval,
     fst (get_cached_results interp (lq_query rooms_named)
            (snd (cache_search_results (lq_query messages_in_room) [hello_doc]
                    empty_world)))
     = Ok (PyList [hello_doc])).
Proof.
  refine (conj _ (conj _ (conj _ _))).
  - discriminate.
  - discriminate.
  - reflexivity.
  - intros interp. vm_compute. reflexivity.
Qed.

(** ** Room search *)

Lemma map_result_sources (docs : list pyval) :
  map_result (fun hit => py_getitem hit "_source")
             (map (fun doc => PyDict [("_source", doc)]) docs) = Ok docs.
Proof.
  induction docs as [|doc docs IH]; [reflexivity|].
  cbn [map map_result]. rewrite IH. reflexivity.
Qed.

(** A backend that filters its documents by the exact-match clauses
    keeps the contract. *)
Lemma filtering_backend_honours (docs : list pyval) :
  honours_must_terms (filtering_backend docs).
Proof.
  intros index b response hits Hes Hhits doc field value Hdoc Hterm.
  unfold filtering_backend in Hes. injection Hes as <-.
  unfold hit_sources in Hhits. cbn [py_getitem dict_get rbind py_iter] in Hhits.
  change (String.eqb "hits" "hits") with true in Hhits. cbn iota in Hhits.
  cbn [rbind py_getitem dict_get] in Hhits.
  change (String.eqb "hits" "hits") with true in Hhits. cbn [rbind py_iter] in Hhits.
  rewrite map_result_sources in Hhits. injection Hhits as <-.
  apply List.filter_In in Hdoc. destruct Hdoc as [_ Hkeep].
  rewrite List.forallb_forall in Hkeep. exact (Hkeep (field, value) Hterm).
Qed.

Lemma search_rooms_world (es : string -> body -> result pyval)
    (query user_id : string) (w : world) :
  snd (search_rooms es query user_id w) =
    log (EsSearch "rooms" (rooms_body query user_id)) w /\
  fst (search_rooms es query user_id w) =
    rbind (es "rooms" (rooms_body query user_id)) hit_sources.
Proof.
  unfold search_rooms, bind, lift, es_search.
  destruct (es "rooms" (rooms_body query user_id)); split; reflexivity.
Qed.

(** C2. Room search always sends, among the [must] clauses of its [bool]
    query, the exact-match clause [members = user_id]; the caller has no
    way to leave it out. So, with a backend that keeps the contract of
    [must], every room returned has the requesting user among its
    members. *)
Theorem search_rooms_members_only (es : string -> body -> result pyval)
    (query user_id : string) (w : world) :
  trace (snd (search_rooms es query user_id w)) =
    (trace w ++ [EsSearch "rooms" (rooms_body query user_id)])%list /\
  clauses_at ["query"; "bool"; "must"] (rooms_body query user_id) =
    [match_clause "name" query; term_clause "members" (PyStr user_id)] /\
  (honours_must_terms es ->
   forall rooms room,
     fst (search_rooms es query user_id w) = Ok rooms ->
     In room rooms ->
     term_holds "members" (PyStr user_id) room = true).
Proof.
  destruct (search_rooms_world es query user_id w) as [Hw Hr].
  split; [rewrite Hw; reflexivity|]. split; [reflexivity|].
  intros Hes rooms room Hrooms Hin. rewrite Hr in Hrooms.
  destruct (es "rooms" (rooms_body query user_id)) as [response|e] eqn:E;
    [|discriminate]. cbn [rbind] in Hrooms.
  apply (Hes "rooms" (rooms_body query user_id) response rooms E Hrooms room).
  - exact Hin.
  - left. reflexivity.
Qed.

Lemma search_rooms_members_only_witness :
  honours_must_terms (filtering_backend sample_rooms) /\
  fst (search_rooms (filtering_backend sample_rooms) "a" "u1" empty_world) =
    Ok [room_of "general" ["u1"; "u2"]; room_of "games" ["u1"]] /\
  In (room_of "games" ["u1"]) [room_of "general" ["u1"; "u2"]; room_of "games" ["u1"]] /\
  term_holds "members" (PyStr "u1") (room_of "games" ["u1"]) = true.
Proof.
  pose (H := filtering_backend_honours sample_rooms).
  assert (Hr : fst (search_rooms (filtering_backend sample_rooms) "a" "u1" empty_world) =
               Ok [room_of "general" ["u1"; "u2"]; room_of "games" ["u1"]])
    by reflexivity.
  assert (Hin : In (room_of "games" ["u1"])
                   [room_of "general" ["u1"; "u2"]; room_of "games" ["u1"]])
    by (right; left; reflexivity).
  refine (conj H (conj Hr (conj Hin _))).
  exact (proj2 (proj2 (search_rooms_members_only
                         (filtering_backend sample_rooms) "a" "u1" empty_world))
           H _ _ Hr Hin).
Defined.

(** ** The vectorizer across requests *)

(** A fit leaves the vocabulary of the text it was given, whatever the
    vectorizer held before. *)
Lemma fit_transform_row_vocabulary (doc : string) (w : world) (row : list float) :
  fst (fit_transform_row doc w) = Ok row ->
  vocabulary_ (snd (fit_transform_row doc w)) = Some (build_vocabulary (tokenize doc)) /\
  row = tfidf_row (build_vocabulary (tokenize doc)) (tokenize doc).
Proof.
  unfold fit_transform_row.
  destruct (build_vocabulary (tokenize doc)) as [|t vocab] eqn:E; [discriminate|].
  cbn [fst snd vocabulary_]. intros H. injection H as <-. split; reflexivity.
Qed.

(** The vector of a text does not depend on what was fitted before. *)
Lemma fit_transform_row_deterministic (doc : string) (w1 w2 : world) :
  fst (fit_transform_row doc w1) = fst (fit_transform_row doc w2).
Proof.
  unfold fit_transform_row.
  destruct (build_vocabulary (tokenize doc)); reflexivity.
Qed.

(** C8 fails on the code: each semantic search refits the vectorizer on
    its own query. After a search for ["hello"] the vocabulary is
    [hello], after one for ["world"] it is [world]; both requests carry
    the vector [1.0], its one coordinate standing for a different term
    each time, and a search for ["hello world"] carries a vector of two
    coordinates. *)
Theorem vectorizer_refit_per_query :
  let w1 := snd (semantic_search one_hit_backend "hello" "" empty_world) in
  let w2 := snd (semantic_search one_hit_backend "world" "" w1) in
  let w3 := snd (semantic_search one_hit_backend "hello world" "" w2) in
  vocabulary_ empty_world = None /\
  vocabulary_ w1 = Some ["hello"] /\
  vocabulary_ w2 = Some ["world"] /\
  vocabulary_ w3 = Some ["hello"; "world"] /\
  fst (fit_transform_row "hello" empty_world) = Ok [1%float] /\
  fst (fit_transform_row "world" w1) = Ok [1%float] /\
  fst (fit_transform_row "hello world" w2) =
    Ok [0x1.6a09e667f3bccp-1%float; 0x1.6a09e667f3bccp-1%float].
Proof. vm_compute. repeat split; reflexivity. Qed.

(** ** Reading hits *)

Lemma map_result_Forall2 {A B} (f : A -> result B) (l : list A) (l' : list B) :
  map_result f l = Ok l' <-> Forall2 (fun x y => f x = Ok y) l l'.
Proof.
  revert l'. induction l as [|x l IH]; intros l'; cbn [map_result].
  - split.
    + intros H. injection H as <-. constructor.
    + intros H. inversion H. reflexivity.
  - destruct (f x) as [y|e] eqn:Ex.
    + destruct (map_result f l) as [ys|e] eqn:El.
      * split.
        -- intros H. injection H as <-. constructor; [exact Ex|]. apply IH. reflexivity.
        -- intros H. inversion H as [|x0 y0 l0 l0' Hy Hl]; subst.
           apply IH in Hl. rewrite Ex in Hy. congruence.
      * split; [discriminate|].
        intros H. inversion H as [|x0 y0 l0 l0' Hy Hl]; subst.
        apply IH in Hl. discriminate.
    + split; [discriminate|].
      intros H. inversion H as [|x0 y0 l0 l0' Hy Hl]; subst. congruence.
Qed.

Lemma map_result_raise {A B} (f : A -> result B) (l : list A) (e : exn) :
  Forall (fun x => f x = Raise e \/ exists y, f x = Ok y) l ->
  Exists (fun x => f x = Raise e) l ->
  map_result f l = Raise e.
Proof.
  induction 1 as [|x l Hx Hl IH]; intros Hex; [inversion Hex|].
  cbn [map_result]. destruct Hx as [Hx | [y Hx]]; rewrite Hx; [reflexivity|].
  inversion Hex as [x0 l0 Hbad | x0 l0 Hrest]; subst; [congruence|].
  rewrite (IH Hrest). reflexivity.
Qed.

(** X1. The list a search returns is read off the response as
    [response["hits"]["hits"]]: one document per hit, in the order of the
    hits, each the hit's [_source]; nothing else of a hit is kept. *)
Theorem hit_sources_spec (response : pyval) (docs : list pyval) :
  hit_sources response = Ok docs <->
  exists outer inner hits,
    py_getitem response "hits" = Ok outer /\
    py_getitem outer "hits" = Ok inner /\
    py_iter inner = Ok hits /\
    length docs = length hits /\
    Forall2 (fun hit doc => py_getitem hit "_source" = Ok doc) hits docs.
Proof.
  unfold hit_sources. split.
  - destruct (py_getitem response "hits") as [outer|e] eqn:E1; [|discriminate].
    cbn [rbind]. destruct (py_getitem outer "hits") as [inner|e] eqn:E2; [|discriminate].
    cbn [rbind]. destruct (py_iter inner) as [hits|e] eqn:E3; [|discriminate].
    cbn [rbind]. intros H. apply map_result_Forall2 in H.
    exists outer, inner, hits.
    refine (conj eq_refl (conj E2 (conj E3 (conj _ H)))).
    symmetry. exact (Forall2_length _ _ _ H).
  - intros (outer & inner & hits & H1 & H2 & H3 & _ & H).
    rewrite H1. cbn [rbind]. rewrite H2. cbn [rbind]. rewrite H3. cbn [rbind].
    apply map_result_Forall2. exact H.
Qed.

(** X2. One hit without a [_source] fails the whole reading with
    [KeyError('_source')]: no partial list of documents is returned. *)
Theorem hit_sources_missing_source (response outer : pyval)
    (hits : list (list (string * pyval))) :
  py_getitem response "hits" = Ok outer ->
  py_getitem outer "hits" = Ok (PyList (map PyDict hits)) ->
  Exists (fun hit => dict_get "_source" hit = None) hits ->
  hit_sources response = Raise (KeyError "_source").
Proof.
  intros H1 H2 Hex. unfold hit_sources. rewrite H1. cbn [rbind]. rewrite H2.
  cbn [rbind py_iter]. apply map_result_raise.
  - apply List.Forall_forall. intros x Hx. apply List.in_map_iff in Hx.
    destruct Hx as (hit & <- & _). cbn [py_getitem].
    destruct (dict_get "_source" hit) as [v|]; [right; eauto | left; reflexivity].
  - apply List.Exists_exists in Hex. destruct Hex as (hit & Hin & Hnone).
    apply List.Exists_exists. exists (PyDict hit). split.
    + apply List.in_map. exact Hin.
    + cbn [py_getitem]. rewrite Hnone. reflexivity.
Qed.

Lemma hit_sources_missing_source_witness :
  hit_sources
    (PyDict [("hits", PyDict [("hits",
       PyList (map PyDict [[("_source", hello_doc)]; [("_id", PyStr "7")]]))])])
  = Raise (KeyError "_source").
Proof.
  apply (hit_sources_missing_source
           (PyDict [("hits", PyDict [("hits",
              PyList (map PyDict [[("_source", hello_doc)]; [("_id", PyStr "7")]]))])])
           (PyDict [("hits",
              PyList (map PyDict [[("_source", hello_doc)]; [("_id", PyStr "7")]]))])
           [[("_source", hello_doc)]; [("_id", PyStr "7")]]).
  - reflexivity.
  - reflexivity.
  - apply List.Exists_cons_tl. apply List.Exists_cons_hd. reflexivity.
Defined.

(** ** Searches and the backend *)

Lemma search_users_world (es : string -> body -> result pyval)
    (query : string) (w : world) :
  snd (search_users es query w) = log (EsSearch "users" (users_body query)) w /\
  fst (search_users es query w) = rbind (es "users" (users_body query)) hit_sources.
Proof.
  unfold search_users, bind, lift, es_search.
  destruct (es "users" (users_body query)); split; reflexivity.
Qed.

(** X3. An exception of the backend is the outcome of the search that
    called it, for the message, user and room searches alike; the call
    is the only one the search makes, and the cache is neither read nor
    written, so the failure is not cached. *)
Theorem search_backend_error (es : string -> body -> result pyval)
    (query user_id : string) (filters : option (list (string * pyval)))
    (e : exn) (w : world) :
  (forall b, messages_body query filters = Ok b -> es "messages" b = Raise e ->
     fst (search_messages es query filters w) = Raise e /\
     backend_calls (trace (snd (search_messages es query filters w))) =
       S (backend_calls (trace w)) /\
     redis_db (snd (search_messages es query filters w)) = redis_db w) /\
  (es "users" (users_body query) = Raise e ->
     fst (search_users es query w) = Raise e /\
     backend_calls (trace (snd (search_users es query w))) = S (backend_calls (trace w)) /\
     redis_db (snd (search_users es query w)) = redis_db w) /\
  (es "rooms" (rooms_body query user_id) = Raise e ->
     fst (search_rooms es query user_id w) = Raise e /\
     backend_calls (trace (snd (search_rooms es query user_id w))) =
       S (backend_calls (trace w)) /\
     redis_db (snd (search_rooms es query user_id w)) = redis_db w).
Proof.
  split; [|split].
  - intros b Hb He.
    destruct (search_messages_world es query filters b w Hb) as [-> ->].
    rewrite He, backend_calls_log. cbn. repeat split; lia.
  - intros He. destruct (search_users_world es query w) as [-> ->].
    rewrite He, backend_calls_log. cbn. repeat split; lia.
  - intros He. destruct (search_rooms_world es query user_id w) as [-> ->].
    rewrite He, backend_calls_log. cbn. repeat split; lia.
Qed.

Lemma search_backend_error_witness :
  fst (search_messages down_backend "x" None empty_world) = Raise ConnectionError /\
  fst (search_users down_backend "x" empty_world) = Raise ConnectionError /\
  fst (search_rooms down_backend "x" "u1" empty_world) = Raise ConnectionError.
Proof.
  pose (T := search_backend_error down_backend "x" "u1" None ConnectionError empty_world).
  refine (conj _ (conj _ _)).
  - exact (proj1 (proj1 T (messages_literal "x") eq_refl eq_refl)).
  - exact (proj1 (proj1 (proj2 T) eq_refl)).
  - exact (proj1 (proj2 (proj2 T) eq_refl)).
Defined.

(** X4. A user search is one request to the [users] index: a
    [multi_match] of the raw query string over [username], boosted by 2,
    and [email]. The body has no size, sort or filter entry, and the
    search returns the sources of the hits. *)
Theorem search_users_request (es : string -> body -> result pyval)
    (query : string) (w : world) :
  backend_requests (trace (snd (search_users es query w))) =
    (backend_requests (trace w) ++ [("users", users_body query)])%list /\
  body_path ["query"; "multi_match"; "query"] (users_body query) =
    Some (BVal (PyStr query)) /\
  body_path ["query"; "multi_match"; "fields"] (users_body query) =
    Some (BList [BVal (PyStr "username^2"); BVal (PyStr "email")]) /\
  body_path ["size"] (users_body query) = None /\
  body_path ["sort"] (users_body query) = None /\
  body_path ["query"; "bool"] (users_body query) = None /\
  fst (search_users es query w) = rbind (es "users" (users_body query)) hit_sources.
Proof.
  destruct (search_users_world es query w) as [Hw Hr].
  split; [|repeat split; try reflexivity; exact Hr].
  rewrite Hw. unfold backend_requests, log. cbn [trace].
  rewrite List.flat_map_app. reflexivity.
Qed.

(** X5. User and room searches, like message searches, go to the backend
    once and leave the cache alone: no Redis call, the store and the
    vectorizer as they were. *)
Theorem lexical_searches_bypass_cache (es : string -> body -> result pyval)
    (query user_id : string) (w : world) :
  let wu := snd (search_users es query w) in
  let wr := snd (search_rooms es query user_id w) in
  (backend_calls (trace wu) = S (backend_calls (trace w)) /\
   cache_calls (trace wu) = cache_calls (trace w) /\
   redis_db wu = redis_db w /\ vocabulary_ wu = vocabulary_ w /\ clock wu = clock w) /\
  (backend_calls (trace wr) = S (backend_calls (trace w)) /\
   cache_calls (trace wr) = cache_calls (trace w) /\
   redis_db wr = redis_db w /\ vocabulary_ wr = vocabulary_ w /\ clock wr = clock w).
Proof.
  cbv zeta.
  destruct (search_users_world es query w) as [-> _].
  destruct (search_rooms_world es query user_id w) as [-> _].
  rewrite !backend_calls_log, !cache_calls_log. cbn. repeat split; lia.
Qed.

(** ** The vocabulary of a query *)

Lemma insert_sorted_not_nil (t : string) (l : list string) : insert_sorted t l <> [].
Proof.
  destruct l as [|u l]; cbn [insert_sorted]; [discriminate|].
  destruct (String.compare t u); discriminate.
Qed.

Lemma build_vocabulary_nil (tokens : list string) :
  build_vocabulary tokens = [] <-> tokens = [].
Proof.
  split; [|intros ->; reflexivity].
  destruct tokens as [|t tokens]; [reflexivity|].
  unfold build_vocabulary. cbn [fold_right]. intros H.
  destruct (insert_sorted_not_nil _ _ H).
Qed.

Lemma insert_sorted_In (x t : string) (l : list string) :
  In x (insert_sorted t l) <-> x = t \/ In x l.
Proof.
  induction l as [|u l IH]; cbn [insert_sorted].
  - cbn [In]. intuition congruence.
  - destruct (String.compare t u) eqn:E.
    + apply String.compare_eq_iff in E. subst u. cbn [In]. intuition congruence.
    + cbn [In]. intuition congruence.
    + cbn [In]. rewrite IH. intuition congruence.
Qed.

Lemma build_vocabulary_In (x : string) (tokens : list string) :
  In x (build_vocabulary tokens) <-> In x tokens.
Proof.
  induction tokens as [|t tokens IH]; [reflexivity|].
  unfold build_vocabulary in *. cbn [fold_right].
  rewrite insert_sorted_In, IH. cbn [In]. intuition congruence.
Qed.

Lemma compare_Gt_Lt (a b : string) : String.compare a b = Gt -> String.compare b a = Lt.
Proof.
  intros H. rewrite String.compare_antisym, H. reflexivity.
Qed.

Lemma strictly_ascending_cons (x y : string) (l : list string) :
  strictly_ascending (x :: y :: l) =
  match String.compare x y with
  | Lt => strictly_ascending (y :: l)
  | _ => false
  end.
Proof. reflexivity. Qed.

Lemma strictly_ascending_tail (x : string) (l : list string) :
  strictly_ascending (x :: l) = true -> strictly_ascending l = true.
Proof.
  destruct l as [|y l]; [reflexivity|].
  rewrite strictly_ascending_cons. destruct (String.compare x y); congruence.
Qed.

Lemma insert_sorted_ascending (t : string) (l : list string) :
  strictly_ascending l = true -> strictly_ascending (insert_sorted t l) = true.
Proof.
  induction l as [|u l IH]; intros Hl; [reflexivity|].
  cbn [insert_sorted]. destruct (String.compare t u) eqn:E.
  - exact Hl.
  - rewrite strictly_ascending_cons, E. exact Hl.
  - specialize (IH (strictly_ascending_tail _ _ Hl)).
    destruct l as [|v l].
    + cbn [insert_sorted]. rewrite strictly_ascending_cons, (compare_Gt_Lt _ _ E).
      reflexivity.
    + rewrite strictly_ascending_cons in Hl.
      destruct (String.compare u v) eqn:Euv; try discriminate Hl.
      cbn [insert_sorted] in *.
      destruct (String.compare t v) eqn:Etv.
      * rewrite strictly_ascending_cons, Euv. exact Hl.
      * rewrite strictly_ascending_cons, (compare_Gt_Lt _ _ E). exact IH.
      * rewrite strictly_ascending_cons, Euv. exact IH.
Qed.

Lemma build_vocabulary_ascending (tokens : list string) :
  strictly_ascending (build_vocabulary tokens) = true.
Proof.
  induction tokens as [|t tokens IH]; [reflexivity|].
  unfold build_vocabulary in *. cbn [fold_right].
  apply insert_sorted_ascending, IH.
Qed.

Lemma tfidf_row_length (vocab tokens : list string) :
  length (tfidf_row vocab tokens) = length vocab.
Proof. unfold tfidf_row. rewrite !List.length_map. reflexivity. Qed.

Lemma fit_transform_row_run (doc : string) (w : world) :
  fit_transform_row doc w =
  match build_vocabulary (tokenize doc) with
  | [] => (Raise (ValueError
             "empty vocabulary; perhaps the documents only contain stop words"),
           log (TfidfFit [doc]) w)
  | vocab =>
      (Ok (tfidf_row vocab (tokenize doc)),
       mkWorld (redis_db w) (clock w) (Some vocab) (trace w ++ [TfidfFit [doc]]))
  end.
Proof.
  unfold fit_transform_row.
  destruct (build_vocabulary (tokenize doc)); reflexivity.
Qed.

(** ** Semantic search, step by step *)

Lemma semantic_search_run (es : string -> body -> result pyval)
    (query context : string) (w : world) :
  semantic_search es query context w =
  match fit_transform_row query w with
  | (Ok row, w') =>
      (rbind (es "messages" (semantic_body row)) hit_sources,
       log (EsSearch "messages" (semantic_body row)) w')
  | (Raise e, w') => (Raise e, w')
  end.
Proof.
  unfold semantic_search, bind, es_search, lift.
  destruct (fit_transform_row query w) as [[row|e] w']; [|reflexivity].
  destruct (es "messages" (semantic_body row)); reflexivity.
Qed.

(** X6. A semantic search whose query is ASCII text without a token (no
    run of two or more letters, digits or underscores) fails with the
    vectorizer's [ValueError]. The backend is not called, and the
    vectorizer, the store and the clock are left as they were. *)
Theorem semantic_search_without_tokens (es : string -> body -> result pyval)
    (query context : string) (w : world) :
  ascii_text query = true ->
  tokenize query = [] ->
  fst (semantic_search es query context w) =
    Raise (ValueError "empty vocabulary; perhaps the documents only contain stop words") /\
  snd (semantic_search es query context w) = log (TfidfFit [query]) w /\
  backend_calls (trace (snd (semantic_search es query context w))) =
    backend_calls (trace w).
Proof.
  intros _ Htok. rewrite semantic_search_run, fit_transform_row_run, Htok.
  cbn [build_vocabulary fold_right fst snd].
  rewrite backend_calls_log. cbn. repeat split; lia.
Qed.

Lemma semantic_search_without_tokens_witness :
  ascii_text "a - b !" = true /\
  tokenize "a - b !" = [] /\
  fst (semantic_search one_hit_backend "a - b !" "" empty_world) =
    Raise (ValueError "empty vocabulary; perhaps the documents only contain stop words").
Proof.
  assert (Ha : ascii_text "a - b !" = true) by reflexivity.
  assert (H : tokenize "a - b !" = []) by reflexivity.
  refine (conj Ha (conj H _)).
  exact (proj1 (semantic_search_without_tokens one_hit_backend "a - b !" ""
                  empty_world Ha H)).
Defined.

(** X7. A semantic search whose query is ASCII text with a token fits
    the vectorizer once and then calls the backend once, on the
    [messages] index, with the request written here: a [script_score]
    query over [match_all] whose script is the text
    [cosineSimilarity(params.query_vector, doc['content_vector']) + 1.0]
    with the query's vector as its parameter, and the size 20. The vector
    has one coordinate per term of the vocabulary the fit leaves behind;
    the store and the clock are left as they were; and the search returns
    the sources of the hits, or the backend's exception. *)
Theorem semantic_search_with_tokens (es : string -> body -> result pyval)
    (query context : string) (w : world) :
  ascii_text query = true ->
  tokenize query <> [] ->
  let vocab := build_vocabulary (tokenize query) in
  let row := tfidf_row vocab (tokenize query) in
  let request :=
    BDict [("query", BDict [("script_score", BDict
             [("query", BDict [("match_all", BDict [])]);
              ("script", BDict
                 [("source", BVal (PyStr
                     "cosineSimilarity(params.query_vector, doc['content_vector']) + 1.0"));
                  ("params", BDict [("query_vector", BVec row)])])])]);
           ("size", BVal (PyInt 20))] in
  snd (semantic_search es query context w) =
    mkWorld (redis_db w) (clock w) (Some vocab)
            (trace w ++ [TfidfFit [query]; EsSearch "messages" request]) /\
  fst (semantic_search es query context w) =
    rbind (es "messages" request) hit_sources /\
  length row = length vocab /\
  cache_calls (trace (snd (semantic_search es query context w))) = cache_calls (trace w).
Proof.
  intros _ Htok vocab row request. subst vocab row request.
  change (BDict [("query", BDict [("script_score", BDict
             [("query", BDict [("match_all", BDict [])]);
              ("script", BDict
                 [("source", BVal (PyStr
                     "cosineSimilarity(params.query_vector, doc['content_vector']) + 1.0"));
                  ("params", BDict [("query_vector",
                     BVec (tfidf_row (build_vocabulary (tokenize query))
                                     (tokenize query)))])])])]);
           ("size", BVal (PyInt 20))])
    with (semantic_body (tfidf_row (build_vocabulary (tokenize query)) (tokenize query))).
  assert (Hv : build_vocabulary (tokenize query) <> [])
    by (intros H; exact (Htok (proj1 (build_vocabulary_nil _) H))).
  assert (Hrun : snd (semantic_search es query context w) =
                 mkWorld (redis_db w) (clock w) (Some (build_vocabulary (tokenize query)))
                   (trace w ++ [TfidfFit [query];
                                EsSearch "messages"
                                  (semantic_body (tfidf_row (build_vocabulary (tokenize query))
                                                            (tokenize query)))]) /\
                 fst (semantic_search es query context w) =
                 rbind (es "messages"
                          (semantic_body (tfidf_row (build_vocabulary (tokenize query))
                                                    (tokenize query)))) hit_sources).
  { rewrite semantic_search_run, fit_transform_row_run.
    destruct (build_vocabulary (tokenize query)) as [|t vocab] eqn:E; [congruence|].
    cbn [fst snd]. unfold log. cbn [redis_db clock vocabulary_ trace].
    rewrite <- List.app_assoc. split; reflexivity. }
  destruct Hrun as [Hw Hr]. rewrite Hw, Hr.
  refine (conj eq_refl (conj eq_refl (conj (tfidf_row_length _ _) _))).
  unfold cache_calls. cbn [trace]. rewrite List.filter_app. cbn [List.filter is_redis].
  rewrite List.app_nil_r. reflexivity.
Qed.

Lemma semantic_search_with_tokens_witness :
  ascii_text "Hello world, hello" = true /\
  tokenize "Hello world, hello" <> [] /\
  snd (semantic_search one_hit_backend "Hello world, hello" "" empty_world) =
    mkWorld ∅ 0 (Some ["hello"; "world"])
      [TfidfFit ["Hello world, hello"];
       EsSearch "messages"
         (BDict [("query", BDict [("script_score", BDict
             [("query", BDict [("match_all", BDict [])]);
              ("script", BDict
                 [("source", BVal (PyStr
                     "cosineSimilarity(params.query_vector, doc['content_vector']) + 1.0"));
                  ("params", BDict [("query_vector",
                     BVec (tfidf_row ["hello"; "world"] ["hello"; "world"; "hello"]))])])])]);
           ("size", BVal (PyInt 20))])].
Proof.
  assert (Ha : ascii_text "Hello world, hello" = true) by reflexivity.
  assert (H : tokenize "Hello world, hello" <> []) by discriminate.
  refine (conj Ha (conj H _)).
  exact (proj1 (semantic_search_with_tokens one_hit_backend "Hello world, hello" ""
                  empty_world Ha H)).
Defined.

(** X8. The vocabulary a successful semantic search of an ASCII query
    leaves on the vectorizer holds exactly the tokens of the query, each
    once, in strictly ascending order; the coordinates of the vector
    sent follow that order. *)
Theorem semantic_search_vocabulary (es : string -> body -> result pyval)
    (query context : string) (w : world) :
  ascii_text query = true ->
  tokenize query <> [] ->
  exists vocab,
    vocabulary_ (snd (semantic_search es query context w)) = Some vocab /\
    strictly_ascending vocab = true /\
    (forall t, In t vocab <-> In t (tokenize query)).
Proof.
  intros _ Htok.
  assert (Hv : build_vocabulary (tokenize query) <> [])
    by (intros H; exact (Htok (proj1 (build_vocabulary_nil _) H))).
  exists (build_vocabulary (tokenize query)).
  split; [|split].
  - rewrite semantic_search_run, fit_transform_row_run.
    destruct (build_vocabulary (tokenize query)) as [|t vocab] eqn:E; [congruence|].
    reflexivity.
  - apply build_vocabulary_ascending.
  - intros t. apply build_vocabulary_In.
Qed.

Lemma semantic_search_vocabulary_witness :
  ascii_text "world hello world" = true /\
  tokenize "world hello world" <> [] /\
  exists vocab,
    vocabulary_ (snd (semantic_search one_hit_backend "world hello world" "" empty_world))
      = Some vocab /\
    strictly_ascending vocab = true /\
    (forall t, In t vocab <-> In t (tokenize "world hello world")).
Proof.
  assert (Ha : ascii_text "world hello world" = true) by reflexivity.
  assert (H : tokenize "world hello world" <> []) by discriminate.
  refine (conj Ha (conj H _)).
  exact (semantic_search_vocabulary one_hit_backend "world hello world" ""
           empty_world Ha H).
Defined.

(** X9. What a semantic search sends depends on the lower-cased query
    alone: two queries that differ only in the case of their ASCII
    letters, under any two contexts, send the same requests, return the
    same outcome and leave the same vocabulary. *)
Theorem semantic_search_ignores_case_and_context
    (es : string -> body -> result pyval) (q1 q2 c1 c2 : string) (w : world) :
  lower q1 = lower q2 ->
  fst (semantic_search es q1 c1 w) = fst (semantic_search es q2 c2 w) /\
  backend_requests (trace (snd (semantic_search es q1 c1 w))) =
    backend_requests (trace (snd (semantic_search es q2 c2 w))) /\
  vocabulary_ (snd (semantic_search es q1 c1 w)) =
    vocabulary_ (snd (semantic_search es q2 c2 w)).
Proof.
  intros Hlow.
  assert (Htok : tokenize q1 = tokenize q2) by (unfold tokenize; rewrite Hlow; reflexivity).
  rewrite !semantic_search_run, !fit_transform_row_run, Htok.
  destruct (build_vocabulary (tokenize q2)) as [|t vocab];
    cbn [fst snd]; unfold log; cbn [trace vocabulary_]; unfold backend_requests;
    rewrite !List.flat_map_app; repeat split; reflexivity.
Qed.

Lemma semantic_search_ignores_case_and_context_witness :
  lower "Stand-Up NOTES" = lower "stand-up notes" /\
  fst (semantic_search one_hit_backend "Stand-Up NOTES" "room r1" empty_world) =
  fst (semantic_search one_hit_backend "stand-up notes" "" empty_world).
Proof.
  assert (H : lower "Stand-Up NOTES" = lower "stand-up notes") by reflexivity.
  split; [exact H|].
  exact (proj1 (semantic_search_ignores_case_and_context one_hit_backend
                  "Stand-Up NOTES" "stand-up notes" "room r1" "" empty_world H)).
Defined.

(** ** More on the result cache *)

Lemma get_cached_results_served (interp : string -> M pyval) (query : string) (w : world) :
  get_cached_results interp query w =
  match served query w with
  | Some text => eval_cached interp text (log (RedisGet (cache_key query)) w)
  | None => (Ok PyNone, log (RedisGet (cache_key query)) w)
  end.
Proof.
  rewrite get_cached_results_run, redis_get_run. unfold served. cbn [fst].
  destruct (redis_db w !! cache_key query) as [[[|c text] expiry]|];
    try reflexivity; destruct (clock w <=? expiry); reflexivity.
Qed.

(** Evaluating a decided text leaves the world as it is, and its
    outcome is the same in every world and whatever other texts
    would do. *)
Lemma eval_cached_literal (interp1 interp2 : string -> M pyval) (text : string)
    (w1 w2 : world) :
  py_eval text <> Other ->
  snd (eval_cached interp1 text w1) = w1 /\
  fst (eval_cached interp1 text w1) = fst (eval_cached interp2 text w2).
Proof.
  unfold eval_cached. destruct (py_eval text); [split; reflexivity.. | congruence].
Qed.

Lemma get_cached_results_world (interp : string -> M pyval) (query : string) (w : world) :
  decided query w ->
  snd (get_cached_results interp query w) = log (RedisGet (cache_key query)) w.
Proof.
  intros Hno. rewrite get_cached_results_served.
  destruct (served query w) as [text|] eqn:E; [|reflexivity].
  apply (eval_cached_literal interp interp text _ w), Hno, E.
Qed.

(** The outcome of a get of a decided text is a function of
    the text served. *)
Lemma get_cached_results_same (interp1 interp2 : string -> M pyval) (query : string)
    (w1 w2 : world) :
  served query w1 = served query w2 ->
  decided query w1 ->
  fst (get_cached_results interp1 query w1) = fst (get_cached_results interp2 query w2).
Proof.
  intros Hs Hno. rewrite !get_cached_results_served, <- Hs.
  destruct (served query w1) as [text|] eqn:E; [|reflexivity].
  apply eval_cached_literal, Hno, E.
Qed.

Lemma decided_number : decided "n" (sleep 5 torn_world).
Proof.
  intros text H. vm_compute in H. injection H as <-. vm_compute. discriminate.
Qed.

(** X10. Caching a result set for one query changes the store under that
    query's key only. So a get for any other query, made at any later
    time, answers as it would have without the put, as long as the text
    it evaluates is a display of literals or does not compile, and so
    is not code. *)
Theorem cache_entries_independent (interp : string -> M pyval) (q1 q2 : string)
    (R : list pyval) (w : world) (dt : Z) :
  q1 <> q2 ->
  decided q2 (sleep dt w) ->
  (forall key, key <> cache_key q1 ->
     redis_db (snd (cache_search_results q1 R w)) !! key = redis_db w !! key) /\
  fst (get_cached_results interp q2 (sleep dt (snd (cache_search_results q1 R w)))) =
  fst (get_cached_results interp q2 (sleep dt w)).
Proof.
  intros Hne Hno.
  destruct (ints_fit (PyList R)) eqn:Hfit.
  - rewrite cache_search_results_run by exact Hfit. cbn [snd redis_db]. split.
    + intros key Hkey. apply lookup_insert_ne. congruence.
    + symmetry. apply get_cached_results_same; [|exact Hno].
      unfold served, sleep. cbn [redis_db clock].
      rewrite lookup_insert_ne; [reflexivity|].
      intros H. apply cache_key_inj in H. exact (Hne H).
  - destruct (cache_search_results_raise q1 R w Hfit) as [msg ->].
    split; reflexivity.
Qed.

Lemma cache_entries_independent_witness :
  "rooms" <> "n" /\
  decided "n" (sleep 5 torn_world) /\
  fst (get_cached_results (fun _ => ret PyNone) "n"
         (sleep 5 (snd (cache_search_results "rooms" [hello_doc] torn_world)))) =
  fst (get_cached_results (fun _ => ret PyNone) "n" (sleep 5 torn_world)).
Proof.
  assert (H : "rooms" <> "n") by discriminate.
  refine (conj H (conj decided_number _)).
  exact (proj2 (cache_entries_independent (fun _ => ret PyNone) "rooms" "n" [hello_doc]
                  torn_world 5 H decided_number)).
Defined.

(** X11. A get whose cached text is a display of literals or does not
    compile, and so is not code, reads and changes nothing:
    it makes one Redis GET and leaves the store, the clock and the
    vectorizer as they were, whether it returns or raises; a second get
    right after it has the same outcome. *)
Theorem get_cached_results_read_only (interp : string -> M pyval) (query : string)
    (w : world) :
  decided query w ->
  trace (snd (get_cached_results interp query w)) =
    (trace w ++ [RedisGet (cache_key query)])%list /\
  redis_db (snd (get_cached_results interp query w)) = redis_db w /\
  clock (snd (get_cached_results interp query w)) = clock w /\
  vocabulary_ (snd (get_cached_results interp query w)) = vocabulary_ w /\
  fst (get_cached_results interp query (snd (get_cached_results interp query w))) =
    fst (get_cached_results interp query w).
Proof.
  intros Hno. rewrite get_cached_results_world by exact Hno.
  refine (conj eq_refl (conj eq_refl (conj eq_refl (conj eq_refl _)))).
  symmetry. apply get_cached_results_same; [reflexivity | exact Hno].
Qed.

Lemma get_cached_results_read_only_witness :
  decided "n" (sleep 5 torn_world) /\
  redis_db (snd (get_cached_results (fun _ => ret PyNone) "n" (sleep 5 torn_world))) =
    redis_db (sleep 5 torn_world).
Proof.
  refine (conj decided_number _).
  exact (proj1 (proj2 (get_cached_results_read_only (fun _ => ret PyNone) "n"
                         (sleep 5 torn_world) decided_number))).
Defined.



(** X13. [str] keeps result sets apart: two result sets of the kind
    [str] writes and [eval] reads back (see C4) that are stored as the
    same text are the same list of documents. *)
Theorem py_str_injective (R1 R2 : list pyval) (text : string) :
  literal_value (PyList R1) -> literal_value (PyList R2) ->
  py_str (PyList R1) = Ok text -> py_str (PyList R2) = Ok text -> R1 = R2.
Proof.
  intros H1 H2 E1 E2.
  rewrite py_str_list in E1, E2 by (apply H1 || apply H2).
  assert (T1 : py_repr (PyList R1) = text) by congruence.
  assert (T2 : py_repr (PyList R2) = text) by congruence.
  pose proof (py_eval_repr (PyList R1) H1) as P1.
  pose proof (py_eval_repr (PyList R2) H2) as P2.
  rewrite T1 in P1. rewrite T2, P1 in P2. congruence.
Qed.

Lemma py_str_injective_witness :
  literal_value (PyList [hello_doc]) /\
  py_str (PyList [hello_doc]) = Ok (py_repr (PyList [hello_doc])) /\
  [hello_doc] = [hello_doc].
Proof.
  refine (conj literal_hello (conj eq_refl _)).
  exact (py_str_injective [hello_doc] [hello_doc] (py_repr (PyList [hello_doc]))
           literal_hello literal_hello eq_refl eq_refl).
Defined.

Lemma backend_calls_app (t1 t2 : list event) :
  backend_calls (t1 ++ t2) = (backend_calls t1 + backend_calls t2)%nat.
Proof. unfold backend_calls. rewrite List.filter_app, List.length_app. reflexivity. Qed.

Lemma search_messages_backend_calls (es : string -> body -> result pyval)
    (query : string) (filters : option (list (string * pyval))) (w : world) :
  backend_calls (trace (snd (search_messages es query filters w))) =
  S (backend_calls (trace w)).
Proof.
  destruct (messages_body_total query filters) as [b Hb].
  destruct (search_messages_world es query filters b w Hb) as [-> _].
  rewrite backend_calls_log. cbn [is_es_search]. lia.
Qed.

(** X14. Read-through by hand. When a message search returns documents
    of the kind [str] writes and [eval] reads back (see C4) and the
    caller caches them under the query, a get for the query returns the
    same documents, in the same order, up to and at 300 seconds after
    the put, and [None] later; the search's backend call stays the only
    one. *)
Theorem search_then_cache_then_get (interp : string -> M pyval)
    (es : string -> body -> result pyval)
    (query : string) (filters : option (list (string * pyval)))
    (docs : list pyval) (w : world) (dt : Z) :
  fst (search_messages es query filters w) = Ok docs ->
  literal_value (PyList docs) ->
  let w1 := snd (search_messages es query filters w) in
  let w2 := snd (cache_search_results query docs w1) in
  let w3 := snd (get_cached_results interp query (sleep dt w2)) in
  fst (get_cached_results interp query (sleep dt w2)) =
    (if dt <=? 300 then Ok (PyList docs) else Ok PyNone) /\
  backend_calls (trace w3) = S (backend_calls (trace w)).
Proof.
  intros Hsearch Hlit w1 w2 w3. subst w3 w2. split.
  - apply get_after_put, Hlit.
  - pose proof Hlit as (_ & _ & Hfit & _).
    assert (Hno : decided query (sleep dt (snd (cache_search_results query docs w1)))).
    { intros text. unfold served. rewrite cache_search_results_run by exact Hfit.
      cbn [snd sleep redis_db clock]. rewrite lookup_insert_eq.
      destruct (py_repr_list_nonempty docs) as (c & t & E). rewrite E.
      destruct (clock w1 + dt <=? clock w1 + 300); [|discriminate].
      intros H. injection H as <-. rewrite <- E, py_eval_repr by exact Hlit.
      discriminate. }
    rewrite get_cached_results_world by exact Hno.
    rewrite cache_search_results_run by exact Hfit.
    cbn [snd]. rewrite backend_calls_log. unfold sleep. cbn [trace is_es_search].
    rewrite backend_calls_app. subst w1. rewrite search_messages_backend_calls.
    cbn. lia.
Qed.

Lemma search_then_cache_then_get_witness :
  fst (search_messages one_hit_backend "hello" None empty_world) = Ok [hello_doc] /\
  literal_value (PyList [hello_doc]) /\
  fst (get_cached_results (fun _ => ret PyNone) "hello"
         (sleep 300 (snd (cache_search_results "hello" [hello_doc]
                            (snd (search_messages one_hit_backend "hello" None
                                    empty_world))))))
  = Ok (PyList [hello_doc]).
Proof.
  assert (H1 : fst (search_messages one_hit_backend "hello" None empty_world)
               = Ok [hello_doc]) by reflexivity.
  refine (conj H1 (conj literal_hello _)).
  exact (proj1 (search_then_cache_then_get (fun _ => ret PyNone) one_hit_backend
                  "hello" None [hello_doc] empty_world 300 H1 literal_hello)).
Defined.

(** ** Indexing *)

Lemma dict_item_Some (d : list (string * pyval)) (k : string) (v : pyval) :
  dict_get k d = Some v -> dict_item d k = Ok v.
Proof. unfold dict_item. intros ->. reflexivity. Qed.

Lemma dict_item_None (d : list (string * pyval)) (k : string) :
  dict_get k d = None -> dict_item d k = Raise (KeyError k).
Proof. unfold dict_item. intros ->. reflexivity. Qed.

(** Splits a statement about [first_missing] on whether the next key is
    there, and rewrites the lookup of that key in the goal. *)
Ltac next_key d k :=
  let v := fresh "v" in
  let E := fresh "E" in
  destruct (dict_get k d) as [v|] eqn:E;
  [rewrite (dict_item_Some d k v E) | rewrite (dict_item_None d k E)];
  cbn [rbind].

(** X16. Each indexing method reads the keys it needs in a fixed order
    before it calls the backend: when one is missing, the method raises
    [KeyError] for the first missing one and the backend is not called.
    The keys are [content], [userId], [roomId], [type] of a message;
    [id], [username], [email] of a user; [id], [name], [members] of a
    room. *)
Theorem index_missing_key (reply : string -> document -> result unit)
    (d : list (string * pyval)) (k : string) (s : index_state) :
  (first_missing ["content"; "userId"; "roomId"; "type"] d = Some k ->
   index_message reply d s = (Raise (KeyError k), s)) /\
  (first_missing ["id"; "username"; "email"] d = Some k ->
   index_user reply d s = (Raise (KeyError k), s)) /\
  (first_missing ["id"; "name"; "members"] d = Some k ->
   index_room reply d s = (Raise (KeyError k), s)).
Proof.
  split; [|split]; cbn [first_missing].
  - unfold index_message, message_document.
    next_key d "content"; [|intros [= <-]; reflexivity].
    next_key d "userId"; [|intros [= <-]; reflexivity].
    next_key d "roomId"; [|intros [= <-]; reflexivity].
    next_key d "type"; [discriminate | intros [= <-]; reflexivity].
  - unfold index_user, user_document.
    next_key d "id"; [|intros [= <-]; reflexivity].
    next_key d "username"; [|intros [= <-]; reflexivity].
    next_key d "email"; [discriminate | intros [= <-]; reflexivity].
  - unfold index_room, room_document.
    next_key d "id"; [|intros [= <-]; reflexivity].
    next_key d "name"; [|intros [= <-]; reflexivity].
    next_key d "members"; [discriminate | intros [= <-]; reflexivity].
Qed.

Lemma index_missing_key_witness :
  index_message accepting_index
    [("content", PyStr "hi"); ("roomId", PyStr "r1")] empty_index =
    (Raise (KeyError "userId"), empty_index) /\
  index_user accepting_index [("username", PyStr "anna")] empty_index =
    (Raise (KeyError "id"), empty_index) /\
  index_room accepting_index
    [("id", PyStr "r1"); ("name", PyStr "general")] empty_index =
    (Raise (KeyError "members"), empty_index).
Proof.
  refine (conj _ (conj _ _)).
  - exact (proj1 (index_missing_key accepting_index
                    [("content", PyStr "hi"); ("roomId", PyStr "r1")]
                    "userId" empty_index) eq_refl).
  - exact (proj1 (proj2 (index_missing_key accepting_index
                           [("username", PyStr "anna")] "id" empty_index)) eq_refl).
  - exact (proj2 (proj2 (index_missing_key accepting_index
                           [("id", PyStr "r1"); ("name", PyStr "general")]
                           "members" empty_index)) eq_refl).
Defined.

(** X17. A message that has its four keys is sent to the [messages]
    index in one call, as a document of exactly six fields: [content],
    [userId] and [roomId] as given, [timestamp] the time of the call,
    [messageType] the message's [type], and [metadata] the message's or
    an empty dict. The method's outcome is the backend's. *)
Theorem index_message_document (reply : string -> document -> result unit)
    (message : list (string * pyval)) (content userId roomId type_ : pyval)
    (s : index_state) :
  dict_get "content" message = Some content ->
  dict_get "userId" message = Some userId ->
  dict_get "roomId" message = Some roomId ->
  dict_get "type" message = Some type_ ->
  let doc := [("content", FVal content); ("userId", FVal userId);
              ("roomId", FVal roomId); ("timestamp", FTime (now s));
              ("messageType", FVal type_);
              ("metadata", FVal (dict_get_default message "metadata" (PyDict [])))] in
  index_message reply message s =
  (reply "messages" doc, mkIndexState (now s) (index_calls s ++ [("messages", doc)])).
Proof.
  intros H1 H2 H3 H4 doc. subst doc. unfold index_message, message_document.
  rewrite (dict_item_Some _ _ _ H1), (dict_item_Some _ _ _ H2),
    (dict_item_Some _ _ _ H3), (dict_item_Some _ _ _ H4).
  reflexivity.
Qed.

Lemma index_message_document_witness :
  index_message accepting_index hello_message empty_index =
  (Ok tt,
   mkIndexState 1700000000
     [("messages",
       [("content", FVal (PyStr "hello")); ("userId", FVal (PyStr "u1"));
        ("roomId", FVal (PyStr "r1")); ("timestamp", FTime 1700000000);
        ("messageType", FVal (PyStr "text")); ("metadata", FVal (PyDict []))])]).
Proof.
  exact (index_message_document accepting_index hello_message
           (PyStr "hello") (PyStr "u1") (PyStr "r1") (PyStr "text") empty_index
           eq_refl eq_refl eq_refl eq_refl).
Defined.

(** X18. A user that has [id], [username] and [email] is sent to the
    [users] index in one call, as a document of exactly four fields:
    [userId] the user's [id], [username], [email], and [metadata] the
    user's or an empty dict. *)
Theorem index_user_document (reply : string -> document -> result unit)
    (user : list (string * pyval)) (id username email : pyval) (s : index_state) :
  dict_get "id" user = Some id ->
  dict_get "username" user = Some username ->
  dict_get "email" user = Some email ->
  let doc := [("userId", FVal id); ("username", FVal username); ("email", FVal email);
              ("metadata", FVal (dict_get_default user "metadata" (PyDict [])))] in
  index_user reply user s =
  (reply "users" doc, mkIndexState (now s) (index_calls s ++ [("users", doc)])).
Proof.
  intros H1 H2 H3 doc. subst doc. unfold index_user, user_document.
  rewrite (dict_item_Some _ _ _ H1), (dict_item_Some _ _ _ H2), (dict_item_Some _ _ _ H3).
  reflexivity.
Qed.

Lemma index_user_document_witness :
  index_user accepting_index
    [("id", PyStr "u1"); ("username", PyStr "anna"); ("email", PyStr "ann@x.com");
     ("password", PyStr "secret")] empty_index =
  (Ok tt,
   mkIndexState 1700000000
     [("users",
       [("userId", FVal (PyStr "u1")); ("username", FVal (PyStr "anna"));
        ("email", FVal (PyStr "ann@x.com")); ("metadata", FVal (PyDict []))])]).
Proof.
  exact (index_user_document accepting_index
           [("id", PyStr "u1"); ("username", PyStr "anna"); ("email", PyStr "ann@x.com");
            ("password", PyStr "secret")]
           (PyStr "u1") (PyStr "anna") (PyStr "ann@x.com") empty_index
           eq_refl eq_refl eq_refl).
Defined.

(** X19. A room that has [id], [name] and [members] is sent to the
    [rooms] index in one call, as a document of exactly five fields:
    [roomId] the room's [id], [name], [description] the room's or the
    empty string, [members], and [metadata] the room's or an empty dict. *)
Theorem index_room_document (reply : string -> document -> result unit)
    (room : list (string * pyval)) (id name members : pyval) (s : index_state) :
  dict_get "id" room = Some id ->
  dict_get "name" room = Some name ->
  dict_get "members" room = Some members ->
  let doc := [("roomId", FVal id); ("name", FVal name);
              ("description", FVal (dict_get_default room "description" (PyStr "")));
              ("members", FVal members);
              ("metadata", FVal (dict_get_default room "metadata" (PyDict [])))] in
  index_room reply room s =
  (reply "rooms" doc, mkIndexState (now s) (index_calls s ++ [("rooms", doc)])).
Proof.
  intros H1 H2 H3 doc. subst doc. unfold index_room, room_document.
  rewrite (dict_item_Some _ _ _ H1), (dict_item_Some _ _ _ H2), (dict_item_Some _ _ _ H3).
  reflexivity.
Qed.

Lemma index_room_document_witness :
  index_room accepting_index
    [("id", PyStr "r1"); ("name", PyStr "general");
     ("members", PyList [PyStr "u1"; PyStr "u2"])] empty_index =
  (Ok tt,
   mkIndexState 1700000000
     [("rooms",
       [("roomId", FVal (PyStr "r1")); ("name", FVal (PyStr "general"));
        ("description", FVal (PyStr ""));
        ("members", FVal (PyList [PyStr "u1"; PyStr "u2"]));
        ("metadata", FVal (PyDict []))])]).
Proof.
  exact (index_room_document accepting_index
           [("id", PyStr "r1"); ("name", PyStr "general");
            ("members", PyList [PyStr "u1"; PyStr "u2"])]
           (PyStr "r1") (PyStr "general") (PyList [PyStr "u1"; PyStr "u2"]) empty_index
           eq_refl eq_refl eq_refl).
Defined.

Lemma message_document_fields (t : Z) (message : list (string * pyval)) (doc : document) :
  message_document t message = Ok doc ->
  map fst doc = ["content"; "userId"; "roomId"; "timestamp"; "messageType"; "metadata"] /\
  dict_get "timestamp" doc = Some (FTime t).
Proof.
  unfold message_document.
  next_key message "content"; [|discriminate].
  next_key message "userId"; [|discriminate].
  next_key message "roomId"; [|discriminate].
  next_key message "type"; [|discriminate].
  intros [= <-]. split; reflexivity.
Qed.

(** X20. Whatever the message holds, a document [index_message] sends
    has the six fields of the method and no other: a [timestamp] given
    by the caller is replaced by the time of the call, and there is never
    a [content_vector], the field the script of [semantic_search] reads. *)
Theorem index_message_fields (reply : string -> document -> result unit)
    (message : list (string * pyval)) (s : index_state)
    (index : string) (doc : document) :
  In (index, doc) (index_calls (snd (index_message reply message s))) ->
  In (index, doc) (index_calls s) \/
  (index = "messages" /\
   map fst doc = ["content"; "userId"; "roomId"; "timestamp"; "messageType"; "metadata"] /\
   dict_get "timestamp" doc = Some (FTime (now s)) /\
   dict_get "content_vector" doc = None).
Proof.
  unfold index_message.
  destruct (message_document (now s) message) as [doc'|e] eqn:E; cbn [snd].
  - unfold es_index. cbn [snd index_calls]. intros Hin.
    apply List.in_app_or in Hin. destruct Hin as [Hin | [[= <- <-] | []]]; [left; exact Hin|].
    right. destruct (message_document_fields _ _ _ E) as [Hkeys Hts].
    refine (conj eq_refl (conj Hkeys (conj Hts _))).
    destruct doc' as [|[k1 x1] [|[k2 x2] [|[k3 x3] [|[k4 x4] [|[k5 x5] [|[k6 x6] [|]]]]]]];
      try discriminate Hkeys.
    injection Hkeys as -> -> -> -> -> ->. reflexivity.
  - intros Hin. left. exact Hin.
Qed.

Lemma index_message_fields_witness :
  dict_get "content_vector" hello_message = Some (PyList [PyInt 1]) /\
  dict_get "timestamp" hello_message = Some (PyInt 0) /\
  exists doc,
    In ("messages", doc)
       (index_calls (snd (index_message accepting_index hello_message empty_index))) /\
    dict_get "timestamp" doc = Some (FTime 1700000000) /\
    dict_get "content_vector" doc = None.
Proof.
  refine (conj eq_refl (conj eq_refl _)).
  eexists. split; [left; reflexivity|].
  destruct (index_message_fields accepting_index hello_message empty_index "messages" _
              (or_introl eq_refl)) as [[] | (_ & _ & Hts & Hcv)].
  exact (conj Hts Hcv).
Defined.

(** X21. Indexing is not idempotent: the call to the backend carries the
    index and the document and no document id, so indexing the same user
    twice sends the same document twice. *)
Theorem index_user_twice (reply : string -> document -> result unit)
    (user : list (string * pyval)) (id username email : pyval) (s : index_state) :
  dict_get "id" user = Some id ->
  dict_get "username" user = Some username ->
  dict_get "email" user = Some email ->
  let doc := [("userId", FVal id); ("username", FVal username); ("email", FVal email);
              ("metadata", FVal (dict_get_default user "metadata" (PyDict [])))] in
  index_calls (snd (index_user reply user (snd (index_user reply user s)))) =
  (index_calls s ++ [("users", doc); ("users", doc)])%list.
Proof.
  intros H1 H2 H3 doc. subst doc.
  assert (Hrun : forall s0,
             snd (index_user reply user s0) =
             mkIndexState (now s0)
               (index_calls s0 ++
                [("users",
                  [("userId", FVal id); ("username", FVal username); ("email", FVal email);
                   ("metadata", FVal (dict_get_default user "metadata" (PyDict [])))])])).
  { intros s0. unfold index_user, user_document.
    rewrite (dict_item_Some _ _ _ H1), (dict_item_Some _ _ _ H2), (dict_item_Some _ _ _ H3).
    reflexivity. }
  rewrite !Hrun. cbn [index_calls]. rewrite <- List.app_assoc. reflexivity.
Qed.

Lemma index_user_twice_witness :
  index_calls
    (snd (index_user accepting_index
            [("id", PyStr "u1"); ("username", PyStr "anna"); ("email", PyStr "ann@x.com")]
            (snd (index_user accepting_index
                    [("id", PyStr "u1"); ("username", PyStr "anna");
                     ("email", PyStr "ann@x.com")] empty_index)))) =
  [("users", [("userId", FVal (PyStr "u1")); ("username", FVal (PyStr "anna"));
              ("email", FVal (PyStr "ann@x.com")); ("metadata", FVal (PyDict []))]);
   ("users", [("userId", FVal (PyStr "u1")); ("username", FVal (PyStr "anna"));
              ("email", FVal (PyStr "ann@x.com")); ("metadata", FVal (PyDict []))])].
Proof.
  exact (index_user_twice accepting_index
           [("id", PyStr "u1"); ("username", PyStr "anna"); ("email", PyStr "ann@x.com")]
           (PyStr "u1") (PyStr "anna") (PyStr "ann@x.com") empty_index
           eq_refl eq_refl eq_refl).
Defined.

